(** * hyperglass: the execution core ([hyperglass/command/execute.py])

    A shallow embedding of the three classes of [execute.py] -- [Rest],
    [Netmiko] and [Execute] -- and the properties of the execution core
    that are stated about them.

    Python values are modelled as the code uses them: [str] as [string],
    status codes as [Z], a call that may raise as an [outcome], and the
    imperative methods as computations over the chronological list of the
    I/O events they performed. *)

From Stdlib Require Import String Ascii List ZArith Bool Lia.
From Stdlib Require Import Numbers.DecimalString.
Import ListNotations.
Open Scope list_scope.
Open Scope string_scope.

(** ** Exceptions and outcomes *)

(** The exception classes the module names in its [except] clauses, and the
    builtin ones its expressions can raise. *)
Inductive exn : Type :=
  (* http3.exceptions, as listed by [Rest.frr] and [Rest.bird] *)
  | ConnectTimeout | CookieConflict | DecodingError | InvalidURL
  | PoolTimeout | ProtocolError | ReadTimeout | RedirectBodyUnavailable
  | RedirectLoop | ResponseClosed | ResponseNotRead | StreamConsumed
  | Timeout | TooManyRedirects | WriteTimeout
  (* netmiko, as listed by [Netmiko.direct] and [Netmiko.proxied] *)
  | NetMikoAuthenticationException | NetMikoTimeoutException
  | NetmikoAuthError | NetmikoTimeoutError
  (* builtins *)
  | AttributeError | IndexError | KeyError | TypeError | ValueError
  (* anything else a collaborator may raise *)
  | OtherError (name : string).

Definition exn_eq_dec (a b : exn) : {a = b} + {a <> b}.
Proof. decide equality; apply string_dec. Defined.

Definition exn_in (e : exn) (l : list exn) : bool :=
  if in_dec exn_eq_dec e l then true else false.

Inductive outcome (A : Type) : Type :=
  | Return (a : A)
  | Raise (e : exn).
Arguments Return {A} a.
Arguments Raise {A} e.

Module Pure.
Definition bind {A B} (c : outcome A) (k : A -> outcome B) : outcome B :=
  match c with
  | Return a => k a
  | Raise e => Raise e
  end.
End Pure.

Declare Scope pure_scope.
Delimit Scope pure_scope with pure.
Notation "x <- c ;; k" := (Pure.bind c (fun x => k))
  (at level 100, c at next level, right associativity) : pure_scope.

(** ** [str] operations used by [Execute.parse] *)

(** [strip_prefix p s] is [Some r] when [s = p ++ r]. *)
Fixpoint strip_prefix (p s : string) : option string :=
  match p, s with
  | EmptyString, _ => Some s
  | String a p', String b s' =>
      if Ascii.eqb a b then strip_prefix p' s' else None
  | String _ _, EmptyString => None
  end.

(** [str.partition] restricted to its successful case: the text before the
    leftmost occurrence of [sep] and the text after it. *)
Fixpoint partition (sep s : string) {struct s} : option (string * string) :=
  match strip_prefix sep s with
  | Some rest => Some (EmptyString, rest)
  | None =>
      match s with
      | EmptyString => None
      | String c s' =>
          match partition sep s' with
          | Some (a, b) => Some (String c a, b)
          | None => None
          end
      end
  end.

(** [sep in s] *)
Definition contains (sep s : string) : bool :=
  match partition sep s with
  | Some _ => true
  | None => false
  end.

(** The pieces of [s.split(sep)], cutting at the leftmost occurrence each
    time; [fuel] bounds the number of cuts. *)
Fixpoint split_fuel (fuel : nat) (sep s : string) : list string :=
  match partition sep s with
  | None => [s]
  | Some (a, b) =>
      match fuel with
      | O => [s]
      | S f => a :: split_fuel f sep b
      end
  end.

(** [s.split(sep)]: an empty separator is a [ValueError]. *)
Definition str_split (s sep : string) : outcome (list string) :=
  match sep with
  | EmptyString => Raise ValueError
  | String _ _ => Return (split_fuel (String.length s) sep s)
  end.

(** [s.count(sep)] for a non-empty [sep]: non-overlapping occurrences,
    scanning from the left. *)
Fixpoint count_fuel (fuel : nat) (sep s : string) : nat :=
  match partition sep s with
  | None => 0
  | Some (_, b) =>
      match fuel with
      | O => 0
      | S f => S (count_fuel f sep b)
      end
  end.

Definition str_count (s sep : string) : nat :=
  count_fuel (String.length s) sep s.

(** [l[i]] *)
Definition list_index {A} (l : list A) (i : nat) : outcome A :=
  match nth_error l i with
  | Some x => Return x
  | None => Raise IndexError
  end.

(** [x in (a, b, ...)] for strings *)
Definition str_in (x : string) (l : list string) : bool :=
  existsb (String.eqb x) l.

(** ** [Execute.parse] *)

Definition parse (input_type output nos : string) : outcome string :=
  if str_in input_type ["bgp_community"; "bgp_aspath"] then
    if str_in nos ["cisco_ios"] then
      let delimiter := "For address family: " in
      (pieces4 <- str_split output delimiter ;;
       parsed_ipv4 <- list_index pieces4 1 ;;
       pieces6 <- str_split output delimiter ;;
       parsed_ipv6 <- list_index pieces6 2 ;;
       Return (delimiter ++ parsed_ipv4 ++ delimiter ++ parsed_ipv6))%pure
    else if str_in nos ["cisco_xr"] then
      let delimiter := "Address Family: " in
      (pieces4 <- str_split output delimiter ;;
       parsed_ipv4 <- list_index pieces4 1 ;;
       pieces6 <- str_split output delimiter ;;
       parsed_ipv6 <- list_index pieces6 2 ;;
       Return (delimiter ++ parsed_ipv4 ++ delimiter ++ parsed_ipv6))%pure
    else Return output
  else Return output.

(** The per-NOS delimiter table that the two branches of [parse] spell out. *)
Definition delimiter_of (nos : string) : option string :=
  if str_in nos ["cisco_ios"] then Some "For address family: "
  else if str_in nos ["cisco_xr"] then Some "Address Family: "
  else None.

Definition applicable (input_type : string) : bool :=
  str_in input_type ["bgp_community"; "bgp_aspath"].

(** ** Configuration objects ([hyperglass.configuration]) *)

Module Credential.
Record t : Type := { username : string; password : string }.
End Credential.

Module Device.
(** [address] is kept in its exploded text form, [proxy] is [None] for a
    device that is reached directly. *)
Record t : Type :=
  { address : string;
    port : N;
    nos : string;
    credential : string;
    proxy : option string;
    location : string }.
End Device.

Module Proxy.
Record t : Type :=
  { address : string;
    username : string;
    password : string;
    nos : string;
    ssh_command : string }.
End Proxy.

(** The keyword arguments handed to netmiko's [ConnectHandler]. The
    [global_delay_factor] is the constant 0.5 in both dictionaries of the
    source, written here in tenths. *)
Record nm_params : Type :=
  { host : string;
    device_type : string;
    username : string;
    password : string;
    global_delay_factor_tenths : N }.

(** What a [Construct] method hands back: the JSON payload of a REST query,
    or the (location, nos, command) triple of a scrape query. *)
Inductive constructed : Type :=
  | Payload (query : string)
  | Triple (location nos command : string).

(** ** Python objects met by the REST executors *)

Record http_request : Type :=
  { endpoint : string;
    headers : list (string * string);
    json : constructed;
    timeout : Z }.

(** A response object: reading [.text] may itself raise (a closed or unread
    response), [.status_code] is a plain attribute. *)
Record http_response : Type :=
  { text : outcome string;
    status_code : Z }.

(** What the expression [http_client.post(...)] evaluates to: an awaitable
    that performs the request once awaited, or a response object. *)
Inductive pyobj : Type :=
  | Awaitable (request : http_request)
  | Response (r : http_response).

(** ** I/O events and the environment *)

Inductive event : Type :=
  (* collaborators *)
  | EvValidate (query_type target : string)
  | EvConstruct (transport query_type target : string)
  (* network *)
  | EvHttp (request : http_request)
  | EvConnect (params : nm_params)
  | EvWrite (data : string)
  | EvRead
  | EvSleep (seconds : nat)
  | EvRedispatch (device_type : string)
  | EvSendCommand (command : string).

Definition trace : Type := list event.

Definition is_network_io (ev : event) : bool :=
  match ev with
  | EvValidate _ _ | EvConstruct _ _ _ | EvSleep _ => false
  | EvHttp _ | EvConnect _ | EvWrite _ | EvRead
  | EvRedispatch _ | EvSendCommand _ => true
  end.

(** Everything [execute.py] imports and does not define: the loaded
    configuration, the constants, the [Validate] and [Construct]
    collaborators, and the replies of the network, each as a function of
    the events performed so far (the last one being the call replied to). *)
Record env : Type :=
  { (* hyperglass.configuration *)
    credentials : string -> option Credential.t;
    devices : string -> option Device.t;
    proxies : string -> option Proxy.t;
    messages_general : string;
    (* hyperglass.constants *)
    code_valid : Z;
    code_invalid : Z;
    is_rest : string -> bool;
    is_scrape : string -> bool;
    (* hyperglass.command.validate, hyperglass.command.construct *)
    Validate : Device.t -> string -> option (string -> bool * string * Z);
    Construct : Device.t -> string -> option (string -> string -> constructed);
    (* str.format, filling the proxy's jump command template from nm_host;
       the loaded templates name keys of nm_host only, so that it returns *)
    format : string -> nm_params -> string;
    (* http3 *)
    client_post : http_request -> outcome pyobj;
    http_reply : trace -> outcome http_response;
    (* netmiko *)
    connect_reply : trace -> outcome unit;
    write_reply : trace -> outcome unit;
    read_reply : trace -> outcome string;
    redispatch_reply : trace -> outcome unit;
    send_command_reply : trace -> outcome string }.

(** ** Computations: exceptions over a trace of events *)

Definition M (A : Type) : Type := trace -> outcome A * trace.

Definition ret {A} (a : A) : M A := fun h => (Return a, h).

Definition raise {A} (e : exn) : M A := fun h => (Raise e, h).

Definition bind {A B} (c : M A) (k : A -> M B) : M B :=
  fun h =>
    match c h with
    | (Return a, h') => k a h'
    | (Raise e, h') => (Raise e, h')
    end.

Definition lift {A} (o : outcome A) : M A := fun h => (o, h).

(** Perform [ev] and take the environment's reply to it. *)
Definition io {A} (ev : event) (reply : trace -> outcome A) : M A :=
  fun h => let h' := (h ++ [ev])%list in (reply h', h').

(** [try: body except ...: handler] *)
Definition try_except {A} (body : M A) (handler : exn -> M A) : M A :=
  fun h =>
    match body h with
    | (Return a, h') => (Return a, h')
    | (Raise e, h') => handler e h'
    end.

Declare Scope io_scope.
Delimit Scope io_scope with io.
Notation "x <- c ;; k" := (bind c (fun x => k))
  (at level 100, c at next level, right associativity) : io_scope.
Notation "c ;;; k" := (bind c (fun _ => k))
  (at level 100, right associativity) : io_scope.

(** [getattr(namespace, name)] *)
Definition getattr {A} (namespace : string -> option A) (name : string)
  : outcome A :=
  match namespace name with
  | Some a => Return a
  | None => Raise AttributeError
  end.

(** [await obj]: an awaitable performs its request, anything else cannot be
    awaited. *)
Definition await (E : env) (obj : pyobj) : M http_response :=
  match obj with
  | Awaitable request => io (EvHttp request) (http_reply E)
  | Response _ => raise TypeError
  end.

(** [obj.text] and [obj.status_code]: a coroutine has neither. *)
Definition get_text (obj : pyobj) : outcome string :=
  match obj with
  | Response r => text r
  | Awaitable _ => Raise AttributeError
  end.

Definition get_status_code (obj : pyobj) : outcome Z :=
  match obj with
  | Response r => Return (status_code r)
  | Awaitable _ => Raise AttributeError
  end.

(** The newline character of the source's string literals. *)
Definition LF : string := String (ascii_of_nat 10) EmptyString.

(** f-string rendering of an [int] *)
Definition str_of_int (n : N) : string := NilZero.string_of_uint (N.to_uint n).

(** ** [class Rest] *)

Module Rest.

Record t : Type :=
  { transport : string;
    device : Device.t;
    query_type : string;
    target : string;
    cred : Credential.t;
    query : constructed }.

Definition __init__ (E : env) (transport : string) (device : Device.t)
    (query_type target : string) : M t :=
  (cred <- lift (getattr (credentials E) (Device.credential device)) ;;
   method <- lift (getattr (Construct E device) query_type) ;;
   query <- io (EvConstruct transport query_type target)
               (fun _ => Return (method transport target)) ;;
   ret {| transport := transport; device := device;
          query_type := query_type; target := target;
          cred := cred; query := query |})%io.

(** The tuple of exception classes of both [except] clauses. *)
Definition rest_errors : list exn :=
  [ ConnectTimeout; CookieConflict; DecodingError; InvalidURL;
    PoolTimeout; ProtocolError; ReadTimeout; RedirectBodyUnavailable;
    RedirectLoop; ResponseClosed; ResponseNotRead; StreamConsumed;
    Timeout; TooManyRedirects; WriteTimeout ].

Definition rest_except (E : env) (rest_error : exn) : M (string * Z) :=
  if exn_in rest_error rest_errors
  then ret (messages_general E, code_invalid E)
  else raise rest_error.

Definition request (self : t) (path : string) : http_request :=
  {| endpoint := "http://" ++ Device.address (device self) ++ ":"
                 ++ str_of_int (Device.port (device self)) ++ path;
     headers := [ ("Content-Type", "application/json");
                  ("X-API-Key", Credential.password (cred self)) ];
     json := query self;
     timeout := 7 |}.

(** The [try] block of [frr]: the POST is awaited, then read. *)
Definition frr_try (E : env) (self : t) : M (string * Z) :=
  (posted <- lift (client_post E (request self "/frr")) ;;
   frr_response <- await E posted ;;
   response <- lift (text frr_response) ;;
   let status := status_code frr_response in
   ret (response, status))%io.

Definition frr (E : env) (self : t) : M (string * Z) :=
  try_except (frr_try E self) (rest_except E).

(** The [try] block of [bird]: the value of the POST expression is read
    as it is, without awaiting it. *)
Definition bird_try (E : env) (self : t) : M (string * Z) :=
  (bird_response <- lift (client_post E (request self "/bird")) ;;
   response <- lift (get_text bird_response) ;;
   status <- lift (get_status_code bird_response) ;;
   ret (response, status))%io.

Definition bird (E : env) (self : t) : M (string * Z) :=
  try_except (bird_try E self) (rest_except E).

End Rest.

(** ** [class Netmiko] *)

Module Netmiko.

Record t : Type :=
  { device : Device.t;
    target : string;
    cred : Credential.t;
    location : string;
    nos : string;
    command : string;
    nm_host : nm_params }.

Definition __init__ (E : env) (transport : string) (device : Device.t)
    (query_type target : string) : M t :=
  (cred <- lift (getattr (credentials E) (Device.credential device)) ;;
   method <- lift (getattr (Construct E device) query_type) ;;
   built <- io (EvConstruct transport query_type target)
               (fun _ => Return (method transport target)) ;;
   match built with
   | Triple location nos command =>
       ret {| device := device; target := target; cred := cred;
              location := location; nos := nos; command := command;
              nm_host := {| host := location;
                            device_type := nos;
                            username := Credential.username cred;
                            password := Credential.password cred;
                            global_delay_factor_tenths := 5 |} |}
   | Payload _ => raise ValueError   (* the 3-way unpacking fails *)
   end)%io.

(** The tuple of exception classes of both [except] clauses. *)
Definition netmiko_errors : list exn :=
  [ NetMikoAuthenticationException; NetMikoTimeoutException;
    NetmikoAuthError; NetmikoTimeoutError ].

Definition netmiko_except (E : env) (netmiko_exception : exn)
  : M (string * Z) :=
  if exn_in netmiko_exception netmiko_errors
  then ret (messages_general E, code_invalid E)
  else raise netmiko_exception.

Definition ConnectHandler (E : env) (params : nm_params) : M unit :=
  io (EvConnect params) (connect_reply E).
Definition write_channel (E : env) (data : string) : M unit :=
  io (EvWrite data) (write_reply E).
Definition read_channel (E : env) : M string :=
  io EvRead (read_reply E).
Definition sleep (seconds : nat) : M unit :=
  io (EvSleep seconds) (fun _ => Return tt).
Definition redispatch (E : env) (device_type : string) : M unit :=
  io (EvRedispatch device_type) (redispatch_reply E).
Definition send_command (E : env) (command : string) : M string :=
  io (EvSendCommand command) (send_command_reply E).

Definition direct (E : env) (self : t) : M (string * Z) :=
  try_except
    (ConnectHandler E (nm_host self) ;;;
     response <- send_command E (command self) ;;
     let status := code_valid E in
     ret (response, status))%io
    (netmiko_except E).

(** Lines 215-223 of [proxied]: answer what the jump command printed.
    The value is [proxy_output] as the block leaves it. *)
Definition proxied_login (E : env) (self : t) (proxy_output : string)
  : M string :=
  (if contains "Are you sure you want to continue connecting" proxy_output
   then
     write_channel E ("yes" ++ LF) ;;;
     write_channel E (password (nm_host self) ++ LF) ;;;
     ret proxy_output
   else if contains "assword" proxy_output
   then
     write_channel E (password (nm_host self) ++ LF) ;;;
     more <- read_channel E ;;
     ret (proxy_output ++ more)
   else ret proxy_output)%io.

(** The [try] block of [proxied]. *)
Definition proxied_try (E : env) (self : t) (proxy_output : string)
  : M (string * Z) :=
  (proxied_login E self proxy_output ;;;
   redispatch E (device_type (nm_host self)) ;;;
   response <- send_command E (command self) ;;
   let status := code_valid E in
   ret (response, status))%io.

Definition nm_proxy (device_proxy : Proxy.t) : nm_params :=
  {| host := Proxy.address device_proxy;
     username := Proxy.username device_proxy;
     password := Proxy.password device_proxy;
     device_type := Proxy.nos device_proxy;
     global_delay_factor_tenths := 5 |}.

Definition proxied (E : env) (self : t) : M (string * Z) :=
  (device_proxy <-
     lift (match Device.proxy (device self) with
           | Some name => getattr (proxies E) name
           | None => Raise TypeError
           end) ;;
   ConnectHandler E (nm_proxy device_proxy) ;;;
   let nm_ssh_command :=
     format E (Proxy.ssh_command device_proxy) (nm_host self) ++ LF in
   write_channel E nm_ssh_command ;;;
   sleep 1 ;;;
   proxy_output <- read_channel E ;;
   try_except (proxied_try E self proxy_output) (netmiko_except E))%io.

End Netmiko.

(** ** [class Execute] *)

Module Execute.

Record t : Type :=
  { input_location : string;
    input_type : string;
    input_target : string }.

(** What the front end may hand over as [lg_data]: the dictionary of a
    well-formed request, or another JSON value. *)
Inductive request_body : Type :=
  | BodyNone
  | BodyStr (s : string)
  | BodyList (items : list string)
  | BodyDict (items : string -> option string).

(** [lg_data[key]] for a string key: a key missing from a dictionary is a
    [KeyError]; [None] cannot be subscripted, and the indices of a string
    or of a list are integers: a [TypeError] each. *)
Definition subscript (lg_data : request_body) (key : string)
  : outcome string :=
  match lg_data with
  | BodyDict items =>
      match items key with
      | Some v => Return v
      | None => Raise KeyError
      end
  | BodyNone | BodyStr _ | BodyList _ => Raise TypeError
  end.

Definition __init__ (lg_data : request_body) : outcome t :=
  (location <- subscript lg_data "location" ;;
   type <- subscript lg_data "type" ;;
   target <- subscript lg_data "target" ;;
   Return {| input_location := location; input_type := type;
             input_target := target |})%pure.

Definition parse (self : t) (output nos : string) : outcome string :=
  parse (input_type self) output nos.

(** [bool(device_config.proxy)]: [None] and the empty string are false. *)
Definition truthy (proxy : option string) : bool :=
  match proxy with
  | Some (String _ _) => true
  | _ => false
  end.

(** The attributes an instance of a class has from [object] and from the
    class statement. *)
Definition object_names : list string :=
  [ "__class__"; "__delattr__"; "__dict__"; "__dir__"; "__doc__";
    "__eq__"; "__format__"; "__ge__"; "__getattribute__"; "__gt__";
    "__hash__"; "__init__"; "__init_subclass__"; "__le__"; "__lt__";
    "__module__"; "__ne__"; "__new__"; "__reduce__"; "__reduce_ex__";
    "__repr__"; "__setattr__"; "__sizeof__"; "__str__";
    "__subclasshook__"; "__weakref__" ].

(** [await getattr(connection, nos)()]: [frr] is a coroutine function and
    is run by the [await]; [bird] is a plain method, so that it runs at
    the call and the [await] is then applied to the tuple it returned; the
    data attributes of the instance are not callable; and what every
    instance inherits from [object] either is not callable, or cannot be
    called without arguments, or returns something that cannot be
    awaited: a [TypeError] in each case. *)
Definition rest_dispatch (E : env) (connection : Rest.t) (nos : string)
  : M (string * Z) :=
  if String.eqb nos "frr" then Rest.frr E connection
  else if String.eqb nos "bird"
  then (Rest.bird E connection ;;; raise TypeError)%io
  else if str_in nos [ "transport"; "device"; "query_type"; "target";
                       "cred"; "query" ]
  then raise TypeError
  else if str_in nos object_names then raise TypeError
  else raise AttributeError.

Definition response (E : env) (self : t) : M (string * Z) :=
  (device_config <- lift (getattr (devices E) (input_location self)) ;;
   check <- lift (getattr (Validate E device_config) (input_type self)) ;;
   verdict <- io (EvValidate (input_type self) (input_target self))
                 (fun _ => Return (check (input_target self))) ;;
   let '(validity, msg, status) := verdict in
   if negb validity then ret (msg, status)
   else
     let output := messages_general E in
     if is_rest E (Device.nos device_config) then
       connection <- Rest.__init__ E "rest" device_config
                       (input_type self) (input_target self) ;;
       result <- rest_dispatch E connection (Device.nos device_config) ;;
       let '(raw_output, status) := result in
       output <- lift (parse self raw_output (Device.nos device_config)) ;;
       ret (output, status)
     else if is_scrape E (Device.nos device_config) then
       connection <- Netmiko.__init__ E "scrape" device_config
                       (input_type self) (input_target self) ;;
       result <- (if truthy (Device.proxy device_config)
                  then Netmiko.proxied E connection
                  else Netmiko.direct E connection) ;;
       let '(raw_output, status) := result in
       output <- lift (parse self raw_output (Device.nos device_config)) ;;
       ret (output, status)
     else ret (output, status))%io.

End Execute.

(** ** A sample installation

    Six locations: an FRR and a BIRD router behind the REST agents, a Cisco
    IOS router reached directly, one reached through the bastion [jump1],
    a router whose NOS no transport supports, and one whose credential is
    not loaded. The replies of the network are left open. *)

Module Sample.

Definition admin : Credential.t :=
  {| Credential.username := "lg"; Credential.password := "s3cret" |}.

Definition router (nos : string) (proxy : option string) (name : string)
  : Device.t :=
  {| Device.address := "192.0.2.1"; Device.port := 8080;
     Device.nos := nos; Device.credential := "admin";
     Device.proxy := proxy; Device.location := name |}.

(** A router whose credential was never loaded. *)
Definition unkeyed : Device.t :=
  {| Device.address := "192.0.2.6"; Device.port := 8080;
     Device.nos := "frr"; Device.credential := "noc";
     Device.proxy := None; Device.location := "pop6" |}.

Definition jump1 : Proxy.t :=
  {| Proxy.address := "198.51.100.7"; Proxy.username := "jump";
     Proxy.password := "b4stion"; Proxy.nos := "linux_ssh";
     Proxy.ssh_command := "ssh -l {username} {host}" |}.

Definition query_types : list string :=
  [ "bgp_route"; "bgp_community"; "bgp_aspath"; "ping"; "traceroute" ].

(** The validator turns down an empty target. *)
Definition check (target : string) : bool * string * Z :=
  match target with
  | EmptyString => (false, "A target must be specified.", 415%Z)
  | String _ _ => (true, "Valid Query", 200%Z)
  end.

Definition build (device : Device.t) (query_type transport target : string)
  : constructed :=
  if String.eqb transport "rest"
  then Payload (query_type ++ " " ++ target)
  else Triple (Device.address device) (Device.nos device)
              ("show " ++ query_type ++ " " ++ target).

Definition installation
    (post : http_request -> outcome pyobj)
    (http : trace -> outcome http_response)
    (connect write : trace -> outcome unit)
    (read : trace -> outcome string)
    (redispatched : trace -> outcome unit)
    (sent : trace -> outcome string) : env :=
  {| credentials := fun name =>
       if String.eqb name "admin" then Some admin else None;
     devices := fun name =>
       if String.eqb name "pop1" then Some (router "frr" None name)
       else if String.eqb name "pop2" then Some (router "bird" None name)
       else if String.eqb name "pop3" then Some (router "cisco_ios" None name)
       else if String.eqb name "pop4"
       then Some (router "cisco_ios" (Some "jump1") name)
       else if String.eqb name "pop5" then Some (router "sros" None name)
       else if String.eqb name "pop6" then Some unkeyed
       else None;
     proxies := fun name =>
       if String.eqb name "jump1" then Some jump1 else None;
     messages_general := "Something went wrong.";
     code_valid := 200;
     code_invalid := 415;
     is_rest := fun nos => str_in nos ["frr"; "bird"];
     is_scrape := fun nos => str_in nos ["cisco_ios"; "cisco_xr"; "juniper"];
     Validate := fun _ query_type =>
       if str_in query_type query_types then Some check else None;
     Construct := fun device query_type =>
       if str_in query_type query_types
       then Some (build device query_type) else None;
     format := fun template params =>
       "ssh -l " ++ username params ++ " " ++ host params;
     client_post := post;
     http_reply := http;
     connect_reply := connect;
     write_reply := write;
     read_reply := read;
     redispatch_reply := redispatched;
     send_command_reply := sent |}.

Definition ok {A} (a : A) : trace -> outcome A := fun _ => Return a.
Definition fails {A} (e : exn) : trace -> outcome A := fun _ => Raise e.

(** The agent answers 200 with the body [ok]. *)
Definition agent_up : env :=
  installation (fun request => Return (Awaitable request))
    (ok {| text := Return "ok"; status_code := 200 |})
    (ok tt) (ok tt) (ok "") (ok tt) (ok "").

(** The agent does not answer in time. *)
Definition agent_down : env :=
  installation (fun request => Return (Awaitable request))
    (fails ConnectTimeout)
    (ok tt) (ok tt) (ok "") (ok tt) (ok "").

(** How many times the channel was read. *)
Definition reads (h : trace) : nat :=
  List.length (filter (fun ev => match ev with
                                 | EvRead => true
                                 | _ => false
                                 end) h).

(** Every session opens; the channel prints [printed] once the jump
    command is written and [after] at any later read; commands print
    [route info]. *)
Definition sessions (printed after : string) : env :=
  installation (fun request => Return (Awaitable request))
    (fails ConnectTimeout)
    (ok tt) (ok tt)
    (fun h => if Nat.eqb (reads h) 1
              then Return printed else Return after)
    (ok tt) (ok "route info").

(** The bastion rejects its credential. *)
Definition bastion_rejects : env :=
  installation (fun request => Return (Awaitable request))
    (fails ConnectTimeout)
    (fails NetMikoAuthenticationException) (ok tt) (ok "") (ok tt)
    (ok "route info").

Definition rest_connection (nos : string) : Rest.t :=
  {| Rest.transport := "rest"; Rest.device := router nos None "pop1";
     Rest.query_type := "bgp_route"; Rest.target := "192.0.2.0/24";
     Rest.cred := admin;
     Rest.query := Payload "bgp_route 192.0.2.0/24" |}.

Definition proxied_connection : Netmiko.t :=
  {| Netmiko.device := router "cisco_ios" (Some "jump1") "pop4";
     Netmiko.target := "192.0.2.0/24";
     Netmiko.cred := admin;
     Netmiko.location := "192.0.2.1";
     Netmiko.nos := "cisco_ios";
     Netmiko.command := "show bgp_route 192.0.2.0/24";
     Netmiko.nm_host := {| host := "192.0.2.1";
                           device_type := "cisco_ios";
                           username := "lg";
                           password := "s3cret";
                           global_delay_factor_tenths := 5 |} |}.

(** The events of [proxied] up to the read that follows the pause. *)
Definition settled : trace :=
  [ EvConnect (Netmiko.nm_proxy jump1);
    EvWrite ("ssh -l lg 192.0.2.1" ++ LF);
    EvSleep 1;
    EvRead ].

Definition ask (location type target : string) : Execute.t :=
  {| Execute.input_location := location; Execute.input_type := type;
     Execute.input_target := target |}.

End Sample.

(** ** Further situations of the sample installation *)

Module Cases.

(** The same installation with another inventory of devices. *)
Definition with_devices (E : env) (inventory : string -> option Device.t)
  : env :=
  {| credentials := credentials E;
     devices := inventory;
     proxies := proxies E;
     messages_general := messages_general E;
     code_valid := code_valid E;
     code_invalid := code_invalid E;
     is_rest := is_rest E;
     is_scrape := is_scrape E;
     Validate := Validate E;
     Construct := Construct E;
     format := format E;
     client_post := client_post E;
     http_reply := http_reply E;
     connect_reply := connect_reply E;
     write_reply := write_reply E;
     read_reply := read_reply E;
     redispatch_reply := redispatch_reply E;
     send_command_reply := send_command_reply E |}.

(** The agent answers, but with a server error. *)
Definition agent_broken : env :=
  Sample.installation (fun request => Return (Awaitable request))
    (Sample.ok {| text := Return "Internal Server Error";
                  status_code := 500 |})
    (Sample.ok tt) (Sample.ok tt) (Sample.ok "") (Sample.ok tt)
    (Sample.ok "").

(** Every session opens and the jump succeeds, but the target does not
    answer the command. *)
Definition target_silent : env :=
  Sample.installation (fun request => Return (Awaitable request))
    (Sample.fails ConnectTimeout)
    (Sample.ok tt) (Sample.ok tt) (Sample.ok "router#") (Sample.ok tt)
    (Sample.fails NetMikoTimeoutException).

(** A router whose bastion is not among the loaded proxies. *)
Definition stranded : Device.t :=
  Sample.router "cisco_ios" (Some "jump9") "pop7".

Definition lost_bastion : env :=
  with_devices (Sample.sessions "" "")
    (fun name => if String.eqb name "pop7" then Some stranded else None).

(** The [Rest] and [Netmiko] instances that [Execute.response] builds for
    a device. *)
Definition rest_instance (device : Device.t)
    (method : string -> string -> constructed) (cred : Credential.t)
    (self : Execute.t) : Rest.t :=
  {| Rest.transport := "rest"; Rest.device := device;
     Rest.query_type := Execute.input_type self;
     Rest.target := Execute.input_target self;
     Rest.cred := cred;
     Rest.query := method "rest" (Execute.input_target self) |}.

Definition netmiko_instance (device : Device.t) (cred : Credential.t)
    (self : Execute.t) (location nos command : string) : Netmiko.t :=
  {| Netmiko.device := device;
     Netmiko.target := Execute.input_target self;
     Netmiko.cred := cred;
     Netmiko.location := location;
     Netmiko.nos := nos;
     Netmiko.command := command;
     Netmiko.nm_host := {| host := location;
                           device_type := nos;
                           username := Credential.username cred;
                           password := Credential.password cred;
                           global_delay_factor_tenths := 5 |} |}.

End Cases.

(** A computation only adds events at the end of the history it is given. *)
Definition appends {A} (c : M A) : Prop :=
  forall h, exists events, snd (c h) = (h ++ events)%list.

(** * Properties *)

(** ** Strings *)

Lemma length_app (s1 s2 : string) :
  String.length (s1 ++ s2) = String.length s1 + String.length s2.
Proof. induction s1 as [|c s1 IH]; simpl; [reflexivity | now rewrite IH]. Qed.

Lemma length_nonempty (s : string) :
  s <> EmptyString -> 0 < String.length s.
Proof. destruct s; [congruence | simpl; lia]. Qed.

(** With a separator that is not empty, [split] returns. *)
Lemma str_split_total (sep s : string) :
  sep <> EmptyString ->
  str_split s sep = Return (split_fuel (String.length s) sep s).
Proof. unfold str_split. destruct sep; congruence. Qed.

Section StringFacts.

Variable sep : string.

Lemma strip_prefix_sound (s r : string) :
  strip_prefix sep s = Some r -> s = sep ++ r.
Proof.
  revert s r. induction sep as [|a p IH]; intros s r; simpl.
  - intros [= ->]. reflexivity.
  - destruct s as [|b s']; [discriminate|].
    destruct (Ascii.eqb a b) eqn:Hab; [|discriminate].
    apply Ascii.eqb_eq in Hab. subst b.
    intros H. apply IH in H. now subst s'.
Qed.

Lemma strip_prefix_complete (r : string) :
  strip_prefix sep (sep ++ r) = Some r.
Proof.
  induction sep as [|a p IH]; simpl; [reflexivity|].
  now rewrite Ascii.eqb_refl.
Qed.

Lemma partition_sound (s a b : string) :
  partition sep s = Some (a, b) -> s = a ++ sep ++ b.
Proof.
  revert a b. induction s as [|c s' IH]; intros a b.
  - simpl. destruct (strip_prefix sep "") eqn:Hp; [|discriminate].
    intros [= <- <-]. now apply strip_prefix_sound in Hp.
  - cbn [partition].
    destruct (strip_prefix sep (String c s')) eqn:Hp.
    + intros [= <- <-]. now apply strip_prefix_sound in Hp.
    + destruct (partition sep s') as [[a' b']|]; [|discriminate].
      intros [= <- <-]. simpl. f_equal. now apply IH.
Qed.

Hypothesis sep_nonempty : sep <> EmptyString.

Lemma partition_shorter (s a b : string) :
  partition sep s = Some (a, b) -> String.length b < String.length s.
Proof.
  intros H. apply partition_sound in H. subst s.
  rewrite !length_app.
  pose proof (length_nonempty sep sep_nonempty). lia.
Qed.

Lemma split_fuel_enough (n m : nat) (s : string) :
  String.length s <= n -> String.length s <= m ->
  split_fuel n sep s = split_fuel m sep s.
Proof.
  revert m s. induction n as [|n IH]; intros m s Hn Hm.
  - destruct m; simpl; destruct (partition sep s) as [[a b]|] eqn:Hp;
      try reflexivity.
    apply partition_shorter in Hp. lia.
  - simpl. destruct (partition sep s) as [[a b]|] eqn:Hp.
    + pose proof (partition_shorter _ _ _ Hp) as Hlt.
      destruct m; [lia|]. simpl. rewrite Hp. f_equal.
      apply IH; lia.
    + destruct m; simpl; now rewrite Hp.
Qed.

Lemma count_fuel_enough (n m : nat) (s : string) :
  String.length s <= n -> String.length s <= m ->
  count_fuel n sep s = count_fuel m sep s.
Proof.
  revert m s. induction n as [|n IH]; intros m s Hn Hm.
  - destruct m; simpl; destruct (partition sep s) as [[a b]|] eqn:Hp;
      try reflexivity.
    apply partition_shorter in Hp. lia.
  - simpl. destruct (partition sep s) as [[a b]|] eqn:Hp.
    + pose proof (partition_shorter _ _ _ Hp) as Hlt.
      destruct m; [lia|]. simpl. rewrite Hp. f_equal.
      apply IH; lia.
    + destruct m; simpl; now rewrite Hp.
Qed.

(** [split] cuts at the leftmost occurrence and goes on with the rest:
    the fuel never runs out. *)
Lemma str_split_unfold (s : string) :
  str_split s sep =
  match partition sep s with
  | None => Return [s]
  | Some (a, b) =>
      match str_split b sep with
      | Return rest => Return (a :: rest)
      | Raise e => Raise e
      end
  end.
Proof.
  rewrite (str_split_total sep s sep_nonempty).
  destruct (partition sep s) as [[a b]|] eqn:Hp.
  - rewrite (str_split_total sep b sep_nonempty).
    pose proof (partition_shorter _ _ _ Hp) as Hlt.
    destruct (String.length s) as [|n] eqn:Hlen; [lia|].
    simpl. rewrite Hp. do 2 f_equal.
    apply split_fuel_enough; lia.
  - destruct (String.length s); simpl; now rewrite Hp.
Qed.

Lemma str_count_unfold (s : string) :
  str_count s sep =
  match partition sep s with
  | None => 0
  | Some (_, b) => S (str_count b sep)
  end.
Proof.
  unfold str_count.
  destruct (partition sep s) as [[a b]|] eqn:Hp.
  - pose proof (partition_shorter _ _ _ Hp) as Hlt.
    destruct (String.length s) as [|n] eqn:Hlen; [lia|].
    simpl. rewrite Hp. f_equal.
    apply count_fuel_enough; lia.
  - destruct (String.length s); simpl; now rewrite Hp.
Qed.

(** One more piece than there are occurrences. *)
Lemma split_fuel_length (n : nat) (s : string) :
  List.length (split_fuel n sep s) = S (count_fuel n sep s).
Proof.
  revert s. induction n as [|n IH]; intros s; simpl;
    destruct (partition sep s) as [[a b]|]; simpl; auto.
Qed.

End StringFacts.

Lemma strip_prefix_app (sep x y r : string) :
  strip_prefix sep x = Some r -> strip_prefix sep (x ++ y) = Some (r ++ y).
Proof.
  revert x. induction sep as [|a p IH]; intros x; simpl.
  - now intros [= ->].
  - destruct x as [|b x']; [discriminate|]. simpl.
    destruct (Ascii.eqb a b); [apply IH | discriminate].
Qed.

(** The text before the leftmost occurrence holds no occurrence. *)
Lemma partition_leftmost (sep s a b : string) :
  sep <> EmptyString ->
  partition sep s = Some (a, b) -> contains sep a = false.
Proof.
  intros Hsep. unfold contains. revert a b.
  induction s as [|c s' IH]; intros a b.
  - destruct sep; [congruence | simpl; discriminate].
  - cbn [partition]. destruct (strip_prefix sep (String c s')) eqn:Hp.
    + intros [= <- <-]. simpl.
      destruct sep; [congruence | reflexivity].
    + destruct (partition sep s') as [[a' b']|] eqn:Hs'; [|discriminate].
      intros [= <- <-].
      pose proof (partition_sound _ _ _ _ Hs') as Heq.
      specialize (IH _ _ eq_refl).
      cbn [partition].
      destruct (strip_prefix sep (String c a')) eqn:Hpa.
      * apply (strip_prefix_app _ _ (sep ++ b')) in Hpa.
        simpl in Hpa. rewrite <- Heq in Hpa. congruence.
      * destruct (partition sep a'); [discriminate | reflexivity].
Qed.

Lemma str_count_zero (sep s : string) :
  sep <> EmptyString -> str_count s sep = 0 -> contains sep s = false.
Proof.
  intros Hsep. rewrite (str_count_unfold sep Hsep). unfold contains.
  destruct (partition sep s) as [[a b]|]; [discriminate | reflexivity].
Qed.

(** ** The normalizer *)

Lemma str_in_In (x : string) (l : list string) :
  str_in x l = true <-> In x l.
Proof.
  unfold str_in. rewrite existsb_exists. split.
  - intros (y & Hy & Heq). apply String.eqb_eq in Heq. now subst.
  - intros H. exists x. split; [assumption | apply String.eqb_refl].
Qed.

(** [parse] read as a lookup in the delimiter table. *)
Lemma parse_by_table (input_type output nos : string) :
  parse input_type output nos =
  if applicable input_type then
    match delimiter_of nos with
    | Some delimiter =>
        (pieces4 <- str_split output delimiter ;;
         parsed_ipv4 <- list_index pieces4 1 ;;
         pieces6 <- str_split output delimiter ;;
         parsed_ipv6 <- list_index pieces6 2 ;;
         Return (delimiter ++ parsed_ipv4 ++ delimiter ++ parsed_ipv6))%pure
    | None => Return output
    end
  else Return output.
Proof.
  unfold parse, applicable, delimiter_of.
  destruct (str_in input_type _); [|reflexivity].
  destruct (str_in nos ["cisco_ios"]); [reflexivity|].
  destruct (str_in nos ["cisco_xr"]); reflexivity.
Qed.

Lemma delimiter_of_nonempty (nos d : string) :
  delimiter_of nos = Some d -> d <> EmptyString.
Proof.
  unfold delimiter_of.
  destruct (str_in nos ["cisco_ios"]); [intros [= <-]; discriminate|].
  destruct (str_in nos ["cisco_xr"]); [intros [= <-]; discriminate|].
  discriminate.
Qed.

Lemma delimiter_of_In (nos : string) :
  delimiter_of nos <> None <-> In nos ["cisco_ios"; "cisco_xr"].
Proof.
  unfold delimiter_of.
  destruct (str_in nos ["cisco_ios"]) eqn:H1;
    [apply str_in_In in H1; simpl in *; intuition congruence|].
  destruct (str_in nos ["cisco_xr"]) eqn:H2;
    [apply str_in_In in H2; simpl in *; intuition congruence|].
  split; [congruence|]. intros Hin. exfalso.
  assert (str_in nos ["cisco_ios"] = true \/ str_in nos ["cisco_xr"] = true)
    as [H|H]; [|congruence..].
  rewrite !str_in_In. simpl in *. intuition.
Qed.

(** C9: [Execute.parse] returns the raw output as it is whenever the query
    type is neither [bgp_community] nor [bgp_aspath], and whenever the NOS
    is neither [cisco_ios] nor [cisco_xr], whatever the text. *)
Theorem parse_identity (self : Execute.t) (output nos : string) :
  ~ In (Execute.input_type self) ["bgp_community"; "bgp_aspath"] \/
  ~ In nos ["cisco_ios"; "cisco_xr"] ->
  Execute.parse self output nos = Return output.
Proof.
  intros H. unfold Execute.parse. rewrite parse_by_table.
  destruct (applicable (Execute.input_type self)) eqn:Ha; [|reflexivity].
  destruct (delimiter_of nos) eqn:Hd; [|reflexivity].
  exfalso. destruct H as [H|H]; apply H.
  - now apply str_in_In.
  - apply delimiter_of_In. congruence.
Qed.

Lemma parse_identity_witness :
  Execute.parse
    {| Execute.input_location := "pop1"; Execute.input_type := "bgp_route";
       Execute.input_target := "192.0.2.0/24" |}
    "For address family: IPv4 Unicast" "cisco_ios"
  = Return "For address family: IPv4 Unicast".
Proof.
  apply parse_identity. left. simpl.
  intros [H|[H|[]]]; discriminate H.
Defined.

(** C8: when the delimiter of the NOS occurs three times in the raw text
    of a community or AS-path lookup, the text is a preamble and three
    sections, each introduced by the delimiter and none holding it, and
    [Execute.parse] returns the first two sections with their delimiters:
    the preamble and the third section are dropped. *)
Theorem parse_three_sections (self : Execute.t) (output nos d : string) :
  In (Execute.input_type self) ["bgp_community"; "bgp_aspath"] ->
  delimiter_of nos = Some d ->
  str_count output d = 3 ->
  exists pre s1 s2 s3,
    output = pre ++ d ++ s1 ++ d ++ s2 ++ d ++ s3 /\
    contains d pre = false /\ contains d s1 = false /\
    contains d s2 = false /\ contains d s3 = false /\
    Execute.parse self output nos = Return (d ++ s1 ++ d ++ s2).
Proof.
  intros Hty Hd Hcount.
  pose proof (delimiter_of_nonempty _ _ Hd) as Hne.
  unfold Execute.parse. rewrite parse_by_table, Hd.
  apply str_in_In in Hty. unfold applicable. rewrite Hty.
  rewrite (str_count_unfold d Hne) in Hcount.
  rewrite (str_split_unfold d Hne).
  destruct (partition d output) as [[pre r1]|] eqn:H1; [|discriminate].
  injection Hcount as Hcount.
  rewrite (str_count_unfold d Hne) in Hcount.
  rewrite (str_split_unfold d Hne r1).
  destruct (partition d r1) as [[s1 r2]|] eqn:H2; [|discriminate].
  injection Hcount as Hcount.
  rewrite (str_count_unfold d Hne) in Hcount.
  rewrite (str_split_unfold d Hne r2).
  destruct (partition d r2) as [[s2 s3]|] eqn:H3; [|discriminate].
  injection Hcount as Hcount.
  rewrite (str_split_total d s3 Hne).
  exists pre, s1, s2, s3.
  repeat split.
  - apply partition_sound in H1, H2, H3. now subst.
  - eapply partition_leftmost; eauto.
  - eapply partition_leftmost; eauto.
  - eapply partition_leftmost; eauto.
  - now apply str_count_zero.
Qed.

Lemma parse_three_sections_witness :
  exists pre s1 s2 s3,
    "show bgp For address family: IPv4 For address family: IPv6 For address family: VPNv4"
    = pre ++ "For address family: " ++ s1 ++ "For address family: " ++ s2
          ++ "For address family: " ++ s3 /\
    contains "For address family: " pre = false /\
    contains "For address family: " s1 = false /\
    contains "For address family: " s2 = false /\
    contains "For address family: " s3 = false /\
    Execute.parse
      {| Execute.input_location := "pop1";
         Execute.input_type := "bgp_community";
         Execute.input_target := "65000:1" |}
      "show bgp For address family: IPv4 For address family: IPv6 For address family: VPNv4"
      "cisco_ios"
    = Return ("For address family: " ++ s1 ++ "For address family: " ++ s2).
Proof.
  apply (parse_three_sections
           {| Execute.input_location := "pop1";
              Execute.input_type := "bgp_community";
              Execute.input_target := "65000:1" |}
           _ "cisco_ios" "For address family: ").
  - simpl. left. reflexivity.
  - reflexivity.
  - vm_compute. reflexivity.
Defined.

(** What the witness of C8 evaluates to. *)
Example parse_ios_community :
  parse "bgp_community"
    "show bgp For address family: IPv4 For address family: IPv6 For address family: VPNv4"
    "cisco_ios"
  = Return "For address family: IPv4 For address family: IPv6 ".
Proof. vm_compute. reflexivity. Qed.

(** C2, as the code has it: with fewer than two occurrences of the
    delimiter in the raw text of a community or AS-path lookup on a NOS of
    the table, [Execute.parse] raises the [IndexError] of the list
    indexing. *)
Theorem parse_too_few_sections (self : Execute.t) (output nos d : string) :
  In (Execute.input_type self) ["bgp_community"; "bgp_aspath"] ->
  delimiter_of nos = Some d ->
  str_count output d < 2 ->
  Execute.parse self output nos = Raise IndexError.
Proof.
  intros Hty Hd Hcount.
  pose proof (delimiter_of_nonempty _ _ Hd) as Hne.
  unfold Execute.parse. rewrite parse_by_table, Hd.
  apply str_in_In in Hty. unfold applicable. rewrite Hty.
  rewrite (str_count_unfold d Hne) in Hcount.
  rewrite (str_split_unfold d Hne).
  destruct (partition d output) as [[pre r1]|] eqn:H1; [|reflexivity].
  rewrite (str_count_unfold d Hne) in Hcount.
  rewrite (str_split_unfold d Hne r1).
  destruct (partition d r1) as [[s1 r2]|] eqn:H2; [lia|].
  reflexivity.
Qed.

Lemma parse_too_few_sections_witness :
  Execute.parse
    {| Execute.input_location := "pop1"; Execute.input_type := "bgp_aspath";
       Execute.input_target := "_65000$" |}
    "Address Family: IPv4 Unicast" "cisco_xr"
  = Raise IndexError.
Proof.
  apply (parse_too_few_sections _ _ _ "Address Family: ").
  - simpl. right. left. reflexivity.
  - reflexivity.
  - vm_compute. lia.
Defined.

(** C2 fails as stated: on a text without the delimiter the failure of
    [Execute.parse] is the out-of-range [IndexError] and nothing else. *)
Lemma parse_index_fault :
  ~ (exists e,
        Execute.parse
          {| Execute.input_location := "pop1";
             Execute.input_type := "bgp_community";
             Execute.input_target := "65000:1" |}
          "% Network not in table" "cisco_ios" = Raise e
        /\ e <> IndexError).
Proof.
  intros (e & Hparse & Hne). vm_compute in Hparse.
  injection Hparse as <-. now apply Hne.
Qed.

(** ** The [except] clauses *)

Lemma exn_in_In (e : exn) (l : list exn) : exn_in e l = true <-> In e l.
Proof.
  unfold exn_in. destruct (in_dec exn_eq_dec e l); split; intros; auto.
  discriminate.
Qed.

Lemma try_except_raise {A} (body : M A) (handler : exn -> M A)
    (h : trace) (e : exn) :
  fst (body h) = Raise e ->
  try_except body handler h = handler e (snd (body h)).
Proof.
  unfold try_except. destruct (body h) as [[a|e'] h']; simpl; congruence.
Qed.

Lemma try_except_return {A} (body : M A) (handler : exn -> M A)
    (h : trace) (a : A) :
  fst (body h) = Return a -> try_except body handler h = body h.
Proof.
  unfold try_except. destruct (body h) as [[a'|e'] h']; simpl; congruence.
Qed.

(** The [try] block of [frr] when the awaited request raises. *)
Lemma frr_try_await_raises (E : env) (self : Rest.t) (h : trace) (e : exn) :
  let request := Rest.request self "/frr" in
  client_post E request = Return (Awaitable request) ->
  http_reply E (h ++ [EvHttp request])%list = Raise e ->
  Rest.frr_try E self h = (Raise e, h ++ [EvHttp request])%list.
Proof.
  intros request Hpost Hreply.
  unfold Rest.frr_try, bind, lift, await, io. fold request.
  rewrite Hpost. simpl. now rewrite Hreply.
Qed.

(** [bird] never performs the request it prepared: the awaitable is read
    as if it were the response. *)
Lemma bird_never_awaits (E : env) (self : Rest.t) (h : trace)
    (request : http_request) :
  client_post E (Rest.request self "/bird") = Return (Awaitable request) ->
  Rest.bird E self h = (Raise AttributeError, h).
Proof.
  intros H. unfold Rest.bird, try_except, Rest.bird_try, bind, lift.
  rewrite H. reflexivity.
Qed.

(** The [try] block of [frr] when the response came and its body cannot
    be read. *)
Lemma frr_try_text_raises (E : env) (self : Rest.t) (h : trace)
    (reply : http_response) (e : exn) :
  let request := Rest.request self "/frr" in
  client_post E request = Return (Awaitable request) ->
  http_reply E (h ++ [EvHttp request])%list = Return reply ->
  text reply = Raise e ->
  Rest.frr_try E self h = (Raise e, h ++ [EvHttp request])%list.
Proof.
  intros request Hpost Hreply Htext.
  unfold Rest.frr_try, bind, lift, await, io. fold request.
  rewrite Hpost. simpl. now rewrite Hreply, Htext.
Qed.

(** C1: with the asynchronous client, whose POST call hands back an
    awaitable, let the request of [Rest.frr] fail with one of the fifteen
    listed http3 exceptions, raised while it is awaited or when the body of
    the response is read. [Rest.frr] performs that one request and returns
    the general message with the invalid status. [Rest.bird] does not: it
    performs no request, its [except] clause has nothing to catch, and an
    [AttributeError] reaches the caller instead of the pair. *)
Theorem rest_transport_failure (E : env) (self : Rest.t) (h : trace)
    (e : exn) :
  let frr_request := Rest.request self "/frr" in
  let bird_request := Rest.request self "/bird" in
  In e Rest.rest_errors ->
  client_post E frr_request = Return (Awaitable frr_request) ->
  client_post E bird_request = Return (Awaitable bird_request) ->
  http_reply E (h ++ [EvHttp frr_request])%list = Raise e \/
  (exists reply,
      http_reply E (h ++ [EvHttp frr_request])%list = Return reply /\
      text reply = Raise e) ->
  Rest.frr E self h =
  (Return (messages_general E, code_invalid E),
   (h ++ [EvHttp frr_request])%list) /\
  Rest.bird E self h = (Raise AttributeError, h).
Proof.
  intros frr_request bird_request He Hfrr Hbird Hfails.
  split; [|now apply bird_never_awaits with (request := bird_request)].
  assert (Htry : Rest.frr_try E self h
                 = (Raise e, h ++ [EvHttp frr_request])%list).
  { destruct Hfails as [Hreply | (reply & Hreply & Htext)].
    - now apply frr_try_await_raises.
    - now apply frr_try_text_raises with (reply := reply). }
  unfold Rest.frr.
  rewrite (try_except_raise _ _ _ e) by now rewrite Htry.
  rewrite Htry. unfold Rest.rest_except.
  apply exn_in_In in He. now rewrite He.
Qed.

Lemma rest_transport_failure_witness :
  Rest.frr Sample.agent_down (Sample.rest_connection "frr") [] =
  (Return ("Something went wrong.", 415%Z),
   [EvHttp (Rest.request (Sample.rest_connection "frr") "/frr")]) /\
  Rest.bird Sample.agent_down (Sample.rest_connection "frr") [] =
  (Raise AttributeError, []).
Proof.
  apply (rest_transport_failure Sample.agent_down
           (Sample.rest_connection "frr") [] ConnectTimeout).
  - simpl. left. reflexivity.
  - reflexivity.
  - reflexivity.
  - left. reflexivity.
Defined.

(** C4: on one and the same completed exchange (status 200, body [ok])
    [Rest.frr] awaits the POST and returns the body and the status, while
    [Rest.bird] reads [.text] off the awaitable it never awaited: the
    request is not performed and an [AttributeError] reaches the caller. *)
Theorem bird_reads_without_awaiting :
  Rest.frr Sample.agent_up (Sample.rest_connection "frr") [] =
  (Return ("ok", 200%Z),
   [EvHttp (Rest.request (Sample.rest_connection "frr") "/frr")])
  /\
  Rest.bird Sample.agent_up (Sample.rest_connection "bird") [] =
  (Raise AttributeError, []).
Proof. split; reflexivity. Qed.

(** Steps 4 and 6 of the traversal are inside the [try] block: a netmiko
    exception raised there is converted. *)
Lemma proxied_try_errors_converted (E : env) (self : Netmiko.t)
    (proxy_output : string) (h : trace) (e : exn) :
  In e Netmiko.netmiko_errors ->
  fst (Netmiko.proxied_try E self proxy_output h) = Raise e ->
  try_except (Netmiko.proxied_try E self proxy_output)
             (Netmiko.netmiko_except E) h =
  (Return (messages_general E, code_invalid E),
   snd (Netmiko.proxied_try E self proxy_output h)).
Proof.
  intros He Hraise. apply exn_in_In in He.
  rewrite (try_except_raise _ _ _ _ Hraise).
  unfold Netmiko.netmiko_except. now rewrite He.
Qed.

(** Step 1 is not: whatever [ConnectHandler] raises for the bastion
    reaches the caller of [proxied]. *)
Lemma proxied_connect_raises (E : env) (self : Netmiko.t) (h : trace)
    (name : string) (device_proxy : Proxy.t) (e : exn) :
  Device.proxy (Netmiko.device self) = Some name ->
  proxies E name = Some device_proxy ->
  connect_reply E (h ++ [EvConnect (Netmiko.nm_proxy device_proxy)])%list
  = Raise e ->
  Netmiko.proxied E self h =
  (Raise e, h ++ [EvConnect (Netmiko.nm_proxy device_proxy)])%list.
Proof.
  intros Hname Hproxy Hconnect.
  unfold Netmiko.proxied, bind, lift, getattr, Netmiko.ConnectHandler, io.
  rewrite Hname, Hproxy. simpl. now rewrite Hconnect.
Qed.

(** C3: when the bastion rejects its credential, the
    [NetMikoAuthenticationException] of the first [ConnectHandler] call
    leaves [Netmiko.proxied] unconverted, whereas [Netmiko.direct], whose
    [ConnectHandler] call is inside its [try] block, converts the same
    exception into the general message with the invalid status. *)
Theorem proxied_bastion_failure_escapes :
  Netmiko.proxied Sample.bastion_rejects Sample.proxied_connection [] =
  (Raise NetMikoAuthenticationException,
   [EvConnect (Netmiko.nm_proxy Sample.jump1)])
  /\
  Netmiko.direct Sample.bastion_rejects Sample.proxied_connection [] =
  (Return ("Something went wrong.", 415%Z),
   [EvConnect (Netmiko.nm_host Sample.proxied_connection)]).
Proof. split; reflexivity. Qed.

(** ** The orchestrator *)

(** C6: when the validator turns the query down, [Execute.response]
    returns the validator's message and status as they are, and the
    validator's call is the only thing it did: no [Construct] call, hence
    no executor, no network event, and no [parse] of the message. *)
Theorem response_rejected_query (E : env) (self : Execute.t) (h : trace)
    (device_config : Device.t) (check : string -> bool * string * Z)
    (msg : string) (status : Z) :
  devices E (Execute.input_location self) = Some device_config ->
  Validate E device_config (Execute.input_type self) = Some check ->
  check (Execute.input_target self) = (false, msg, status) ->
  Execute.response E self h =
  (Return (msg, status),
   h ++ [EvValidate (Execute.input_type self) (Execute.input_target self)])%list.
Proof.
  intros Hdev Hval Hcheck.
  unfold Execute.response, bind, lift, getattr, io.
  rewrite Hdev, Hval, Hcheck. reflexivity.
Qed.

Lemma response_rejected_query_witness :
  Execute.response Sample.agent_up (Sample.ask "pop1" "bgp_route" "") [] =
  (Return ("A target must be specified.", 415%Z),
   [EvValidate "bgp_route" ""]).
Proof.
  apply (response_rejected_query Sample.agent_up
           (Sample.ask "pop1" "bgp_route" "") []
           (Sample.router "frr" None "pop1") Sample.check);
    reflexivity.
Defined.




(** The constructors of both executors look the credential up, then the
    [Construct] method, before anything else. *)
Lemma init_missing_attribute (E : env) (transport : string)
    (device : Device.t) (query_type target : string) (h : trace) :
  credentials E (Device.credential device) = None \/
  Construct E device query_type = None ->
  Rest.__init__ E transport device query_type target h
  = (Raise AttributeError, h) /\
  Netmiko.__init__ E transport device query_type target h
  = (Raise AttributeError, h).
Proof.
  intros H.
  unfold Rest.__init__, Netmiko.__init__, bind, lift, getattr.
  destruct (credentials E (Device.credential device)).
  - destruct H as [H|H]; [discriminate|]. now rewrite H.
  - split; reflexivity.
Qed.

(** C10: the device, the validator method, the credential and the
    [Construct] method are looked up by name; when one of the names is
    missing, [Execute.response] raises [AttributeError], having performed
    no network event, and neither [except] clause of the executors takes
    an [AttributeError]. *)
Theorem missing_name_raises (E : env) (self : Execute.t) (h : trace) :
  devices E (Execute.input_location self) = None \/
  (exists device_config,
      devices E (Execute.input_location self) = Some device_config /\
      (Validate E device_config (Execute.input_type self) = None \/
       exists check msg status,
         Validate E device_config (Execute.input_type self) = Some check /\
         check (Execute.input_target self) = (true, msg, status) /\
         (is_rest E (Device.nos device_config) = true \/
          is_scrape E (Device.nos device_config) = true) /\
         (credentials E (Device.credential device_config) = None \/
          Construct E device_config (Execute.input_type self) = None))) ->
  (exists events,
      Execute.response E self h = (Raise AttributeError, h ++ events)%list /\
      forallb (fun ev => negb (is_network_io ev)) events = true) /\
  Rest.rest_except E AttributeError = raise AttributeError /\
  Netmiko.netmiko_except E AttributeError = raise AttributeError.
Proof.
  intros H. split; [|split; reflexivity].
  destruct H as [Hdev | (device_config & Hdev & [Hval | Hrun])].
  - exists []. rewrite app_nil_r. split; [|reflexivity].
    unfold Execute.response, bind, lift, getattr. now rewrite Hdev.
  - exists []. rewrite app_nil_r. split; [|reflexivity].
    unfold Execute.response, bind, lift, getattr. now rewrite Hdev, Hval.
  - destruct Hrun as (check & msg & status & Hval & Hcheck & Hnos & Hname).
    exists [EvValidate (Execute.input_type self) (Execute.input_target self)].
    split; [|reflexivity].
    unfold Execute.response.
    unfold bind at 1, lift at 1, getattr at 1. rewrite Hdev.
    unfold bind at 1, lift at 1, getattr at 1. rewrite Hval.
    unfold bind at 1, io at 1. rewrite Hcheck. cbn [negb].
    destruct (init_missing_attribute E "rest" device_config
                (Execute.input_type self) (Execute.input_target self)
                (h ++ [EvValidate (Execute.input_type self)
                         (Execute.input_target self)])%list Hname)
      as [Hrest _].
    destruct (init_missing_attribute E "scrape" device_config
                (Execute.input_type self) (Execute.input_target self)
                (h ++ [EvValidate (Execute.input_type self)
                         (Execute.input_target self)])%list Hname)
      as [_ Hscrape].
    destruct (is_rest E (Device.nos device_config)).
    + unfold bind at 1. now rewrite Hrest.
    + destruct Hnos as [Hnos|Hnos]; [discriminate|]. rewrite Hnos.
      unfold bind at 1. now rewrite Hscrape.
Qed.

Lemma missing_name_raises_witness :
  (exists events,
      Execute.response Sample.agent_up
        (Sample.ask "pop6" "bgp_route" "192.0.2.0/24") [] =
      (Raise AttributeError, [] ++ events)%list /\
      forallb (fun ev => negb (is_network_io ev)) events = true) /\
  Rest.rest_except Sample.agent_up AttributeError = raise AttributeError /\
  Netmiko.netmiko_except Sample.agent_up AttributeError
  = raise AttributeError.
Proof.
  apply (missing_name_raises Sample.agent_up
           (Sample.ask "pop6" "bgp_route" "192.0.2.0/24") []).
  right. exists Sample.unkeyed. split; [reflexivity|].
  right. exists Sample.check, "Valid Query", 200%Z.
  repeat split; left; reflexivity.
Defined.

(** ** The proxy traversal *)

(** The handler of [proxied] performs no event of its own. *)
Lemma netmiko_except_trace (E : env) (e : exn) (h : trace) :
  snd (Netmiko.netmiko_except E e h) = h.
Proof.
  unfold Netmiko.netmiko_except.
  destruct (exn_in e Netmiko.netmiko_errors); reflexivity.
Qed.

Lemma try_netmiko_trace (E : env) (body : M (string * Z)) (h : trace) :
  snd (try_except body (Netmiko.netmiko_except E) h) = snd (body h).
Proof.
  unfold try_except. destruct (body h) as [[a|e] h']; simpl;
    [reflexivity | apply netmiko_except_trace].
Qed.

(** Once the bastion session is open and the jump command written, what
    [proxied] does is its [try] block on the text read after the pause. *)
Lemma proxied_reaches_try (E : env) (self : Netmiko.t) (h : trace)
    (name : string) (device_proxy : Proxy.t) (proxy_output : string) :
  let nm_ssh_command :=
    format E (Proxy.ssh_command device_proxy) (Netmiko.nm_host self) ++ LF in
  let opened := (h ++ [EvConnect (Netmiko.nm_proxy device_proxy)])%list in
  let written := (opened ++ [EvWrite nm_ssh_command])%list in
  let settled := (written ++ [EvSleep 1; EvRead])%list in
  Device.proxy (Netmiko.device self) = Some name ->
  proxies E name = Some device_proxy ->
  connect_reply E opened = Return tt ->
  write_reply E written = Return tt ->
  read_reply E settled = Return proxy_output ->
  Netmiko.proxied E self h =
  try_except (Netmiko.proxied_try E self proxy_output)
             (Netmiko.netmiko_except E) settled.
Proof.
  intros nm_ssh_command opened written settled Hname Hproxy Hc Hw Hr.
  unfold Netmiko.proxied.
  unfold bind at 1, lift, getattr. rewrite Hname, Hproxy.
  unfold bind at 1, Netmiko.ConnectHandler, io. fold opened. rewrite Hc.
  unfold bind at 1, Netmiko.write_channel, io.
  fold nm_ssh_command. fold written. rewrite Hw.
  unfold bind at 1, Netmiko.sleep, io.
  unfold bind at 1, Netmiko.read_channel, io.
  replace ((written ++ [EvSleep 1]) ++ [EvRead])%list with settled
    by (unfold settled; now rewrite <- app_assoc).
  now rewrite Hr.
Qed.

(** After the login block, the next thing the [try] block does is the
    redispatch to the device type of the target. *)
Lemma proxied_try_redispatches (E : env) (self : Netmiko.t)
    (proxy_output answered : string) (h h' : trace) :
  Netmiko.proxied_login E self proxy_output h = (Return answered, h') ->
  exists rest,
    snd (Netmiko.proxied_try E self proxy_output h) =
    (h' ++ EvRedispatch (device_type (Netmiko.nm_host self)) :: rest)%list.
Proof.
  intros Hlogin. unfold Netmiko.proxied_try.
  unfold bind at 1. rewrite Hlogin.
  unfold bind at 1, Netmiko.redispatch, io.
  destruct (redispatch_reply E _) as [[]|e].
  - unfold bind, Netmiko.send_command, io.
    destruct (send_command_reply E _) as [response|e]; simpl;
      rewrite <- app_assoc; eexists; reflexivity.
  - simpl. exists []. reflexivity.
Qed.

(** The password prompt is matched as written: capitals do not match. *)
Example password_prompt_is_case_sensitive :
  contains "assword" "Password: " = true /\
  contains "assword" "PASSWORD: " = false.
Proof. split; reflexivity. Qed.

(** C7: [Netmiko.proxied], once the bastion session is open, the jump
    command written and the channel read, answers what it read in this
    order of priority.  With the host-key question in the text: the write
    of [yes] and the write of the secret, each ended by a newline, and no
    read.  Otherwise, with [assword] in the text: one write of the secret
    and a newline, then one read, whose text is appended to what was read
    before.  Otherwise nothing.  In each case the redispatch is the next
    event. *)
Theorem proxied_login_priority (E : env) (self : Netmiko.t) (h : trace)
    (name : string) (device_proxy : Proxy.t) (proxy_output : string) :
  let nm_ssh_command :=
    format E (Proxy.ssh_command device_proxy) (Netmiko.nm_host self) ++ LF in
  let opened := (h ++ [EvConnect (Netmiko.nm_proxy device_proxy)])%list in
  let written := (opened ++ [EvWrite nm_ssh_command])%list in
  let settled := (written ++ [EvSleep 1; EvRead])%list in
  let yes := EvWrite ("yes" ++ LF) in
  let secret := EvWrite (password (Netmiko.nm_host self) ++ LF) in
  let redispatched := EvRedispatch (device_type (Netmiko.nm_host self)) in
  Device.proxy (Netmiko.device self) = Some name ->
  proxies E name = Some device_proxy ->
  connect_reply E opened = Return tt ->
  write_reply E written = Return tt ->
  read_reply E settled = Return proxy_output ->
  (contains "Are you sure you want to continue connecting" proxy_output
   = true ->
   write_reply E (settled ++ [yes])%list = Return tt ->
   write_reply E (settled ++ [yes; secret])%list = Return tt ->
   Netmiko.proxied_login E self proxy_output settled =
   (Return proxy_output, (settled ++ [yes; secret])%list) /\
   exists rest,
     snd (Netmiko.proxied E self h) =
     (settled ++ [yes; secret] ++ redispatched :: rest)%list)
  /\
  (contains "Are you sure you want to continue connecting" proxy_output
   = false ->
   contains "assword" proxy_output = true ->
   write_reply E (settled ++ [secret])%list = Return tt ->
   forall more,
     read_reply E (settled ++ [secret; EvRead])%list = Return more ->
     Netmiko.proxied_login E self proxy_output settled =
     (Return (proxy_output ++ more), (settled ++ [secret; EvRead])%list) /\
     exists rest,
       snd (Netmiko.proxied E self h) =
       (settled ++ [secret; EvRead] ++ redispatched :: rest)%list)
  /\
  (contains "Are you sure you want to continue connecting" proxy_output
   = false ->
   contains "assword" proxy_output = false ->
   Netmiko.proxied_login E self proxy_output settled =
   (Return proxy_output, settled) /\
   exists rest,
     snd (Netmiko.proxied E self h) = (settled ++ redispatched :: rest)%list).
Proof.
  intros nm_ssh_command opened written settled yes secret redispatched
    Hname Hproxy Hc Hw Hr.
  pose proof (proxied_reaches_try E self h name device_proxy proxy_output
                Hname Hproxy Hc Hw Hr) as Hrun.
  cbv zeta in Hrun. fold nm_ssh_command opened written settled in Hrun.
  rewrite Hrun, try_netmiko_trace.
  assert (Hnext : forall answered h',
             Netmiko.proxied_login E self proxy_output settled
             = (Return answered, h') ->
             Netmiko.proxied_login E self proxy_output settled
             = (Return answered, h') /\
             exists rest,
               snd (Netmiko.proxied_try E self proxy_output settled) =
               (h' ++ redispatched :: rest)%list).
  { intros answered h' Hlogin. split; [assumption|].
    now apply proxied_try_redispatches with (answered := answered). }
  split; [|split].
  - intros Hkey Hyes Hsecret.
    destruct (Hnext proxy_output (settled ++ [yes; secret])%list)
      as [Hlogin [rest Hrest]].
    + unfold Netmiko.proxied_login. rewrite Hkey.
      unfold bind, Netmiko.write_channel, io. fold yes. rewrite Hyes.
      fold secret.
      replace ((settled ++ [yes]) ++ [secret])%list
        with (settled ++ [yes; secret])%list by now rewrite <- app_assoc.
      now rewrite Hsecret.
    + split; [assumption|]. exists rest. rewrite Hrest.
      now rewrite <- app_assoc.
  - intros Hkey Hprompt Hsecret more Hmore.
    destruct (Hnext (proxy_output ++ more) (settled ++ [secret; EvRead])%list)
      as [Hlogin [rest Hrest]].
    + unfold Netmiko.proxied_login. rewrite Hkey, Hprompt.
      unfold bind, Netmiko.write_channel, Netmiko.read_channel, io.
      fold secret. rewrite Hsecret.
      replace ((settled ++ [secret]) ++ [EvRead])%list
        with (settled ++ [secret; EvRead])%list by now rewrite <- app_assoc.
      now rewrite Hmore.
    + split; [assumption|]. exists rest. rewrite Hrest.
      now rewrite <- app_assoc.
  - intros Hkey Hprompt.
    destruct (Hnext proxy_output settled) as [Hlogin [rest Hrest]].
    + unfold Netmiko.proxied_login. now rewrite Hkey, Hprompt.
    + split; [assumption|]. exists rest. exact Hrest.
Qed.

Lemma proxied_login_priority_witness :
  (let E := Sample.sessions
              "Are you sure you want to continue connecting (yes/no)? " "" in
   Netmiko.proxied_login E Sample.proxied_connection
     "Are you sure you want to continue connecting (yes/no)? "
     Sample.settled =
   (Return "Are you sure you want to continue connecting (yes/no)? ",
    (Sample.settled ++ [EvWrite ("yes" ++ LF); EvWrite ("s3cret" ++ LF)])%list)
   /\
   exists rest,
     snd (Netmiko.proxied E Sample.proxied_connection []) =
     (Sample.settled ++ [EvWrite ("yes" ++ LF); EvWrite ("s3cret" ++ LF)]
        ++ EvRedispatch "cisco_ios" :: rest)%list)
  /\
  (let E := Sample.sessions "Password: " "router#" in
   Netmiko.proxied_login E Sample.proxied_connection
     "Password: " Sample.settled =
   (Return "Password: router#",
    (Sample.settled ++ [EvWrite ("s3cret" ++ LF); EvRead])%list)
   /\
   exists rest,
     snd (Netmiko.proxied E Sample.proxied_connection []) =
     (Sample.settled ++ [EvWrite ("s3cret" ++ LF); EvRead]
        ++ EvRedispatch "cisco_ios" :: rest)%list)
  /\
  (let E := Sample.sessions "router#" "" in
   Netmiko.proxied_login E Sample.proxied_connection "router#"
     Sample.settled =
   (Return "router#", Sample.settled)
   /\
   exists rest,
     snd (Netmiko.proxied E Sample.proxied_connection []) =
     (Sample.settled ++ EvRedispatch "cisco_ios" :: rest)%list).
Proof.
  split; [|split].
  - exact (proj1 (proxied_login_priority
                    (Sample.sessions
                       "Are you sure you want to continue connecting (yes/no)? "
                       "")
                    Sample.proxied_connection [] "jump1" Sample.jump1
                    "Are you sure you want to continue connecting (yes/no)? "
                    eq_refl eq_refl eq_refl eq_refl eq_refl)
             eq_refl eq_refl eq_refl).
  - exact (proj1 (proj2 (proxied_login_priority
                    (Sample.sessions "Password: " "router#")
                    Sample.proxied_connection [] "jump1" Sample.jump1
                    "Password: "
                    eq_refl eq_refl eq_refl eq_refl eq_refl))
             eq_refl eq_refl eq_refl "router#" eq_refl).
  - exact (proj2 (proj2 (proxied_login_priority
                    (Sample.sessions "router#" "")
                    Sample.proxied_connection [] "jump1" Sample.jump1
                    "router#"
                    eq_refl eq_refl eq_refl eq_refl eq_refl))
             eq_refl eq_refl).
Defined.

(** * Further properties *)

(** ** The normalizer on any number of sections *)

Lemma str_app_assoc (a b c : string) : (a ++ b) ++ c = a ++ b ++ c.
Proof. induction a as [|x a IH]; simpl; [reflexivity | now rewrite IH]. Qed.

Lemma partition_eq (sep s : string) :
  partition sep s =
  match strip_prefix sep s with
  | Some rest => Some (EmptyString, rest)
  | None =>
      match s with
      | EmptyString => None
      | String c s' =>
          match partition sep s' with
          | Some (a, b) => Some (String c a, b)
          | None => None
          end
      end
  end.
Proof. destruct s; reflexivity. Qed.

Lemma strip_prefix_none_app (sep y b : string) :
  String.length sep <= String.length y ->
  strip_prefix sep y = None -> strip_prefix sep (y ++ b) = None.
Proof.
  revert y. induction sep as [|a p IH]; intros y Hlen; simpl.
  - discriminate.
  - destruct y as [|c y']; simpl in *; [lia|].
    destruct (Ascii.eqb a c); [apply IH; lia | reflexivity].
Qed.

(** Where the leftmost occurrence stands does not depend on what follows
    it. *)
Lemma partition_stable (sep a b b' : string) :
  partition sep (a ++ sep ++ b) = Some (a, b) ->
  partition sep (a ++ sep ++ b') = Some (a, b').
Proof.
  revert b b'. induction a as [|c a IH]; intros b b'.
  - intros _. simpl. rewrite partition_eq.
    now rewrite strip_prefix_complete.
  - simpl. cbn [partition].
    destruct (strip_prefix sep (String c (a ++ sep ++ b))) eqn:Hp;
      [discriminate|].
    destruct (partition sep (a ++ sep ++ b)) as [[a0 b0]|] eqn:Hrec;
      [|discriminate].
    intros [= -> ->].
    assert (Hshort : strip_prefix sep (String c a ++ sep) = None).
    { destruct (strip_prefix sep (String c a ++ sep)) eqn:Hs; [|reflexivity].
      apply (strip_prefix_app _ _ b) in Hs.
      rewrite str_app_assoc in Hs. simpl in Hs. congruence. }
    apply (strip_prefix_none_app _ _ b') in Hshort.
    + rewrite str_app_assoc in Hshort. simpl in Hshort. rewrite Hshort.
      now rewrite (IH _ b' Hrec).
    + rewrite length_app. simpl. lia.
Qed.

(** The applicable branch of [parse] on a delimiter that occurs at least
    twice: the first two sections, and what stands around them. *)
Lemma parse_sections (input_type output nos d r : string) :
  applicable input_type = true ->
  delimiter_of nos = Some d ->
  parse input_type output nos = Return r ->
  exists pre s1 s2 post,
    r = d ++ s1 ++ d ++ s2 /\
    output = pre ++ r ++ post /\
    partition d output = Some (pre, s1 ++ d ++ s2 ++ post) /\
    partition d (s1 ++ d ++ s2 ++ post) = Some (s1, s2 ++ post) /\
    contains d s2 = false /\
    (post = EmptyString \/ exists rest, post = d ++ rest).
Proof.
  intros Hty Hd. pose proof (delimiter_of_nonempty _ _ Hd) as Hne.
  rewrite parse_by_table, Hty, Hd.
  rewrite (str_split_unfold d Hne).
  destruct (partition d output) as [[pre r1]|] eqn:H1; [|discriminate].
  rewrite (str_split_unfold d Hne r1).
  destruct (partition d r1) as [[s1 r2]|] eqn:H2; [|discriminate].
  rewrite (str_split_unfold d Hne r2).
  pose proof (partition_sound _ _ _ _ H1) as E1.
  pose proof (partition_sound _ _ _ _ H2) as E2.
  destruct (partition d r2) as [[s2 r3]|] eqn:H3.
  - rewrite (str_split_total d r3 Hne). simpl. intros [= <-].
    pose proof (partition_sound _ _ _ _ H3) as E3.
    exists pre, s1, s2, (d ++ r3). subst r2 r1.
    repeat apply conj.
    + reflexivity.
    + rewrite E1. now rewrite !str_app_assoc.
    + reflexivity.
    + exact H2.
    + eapply partition_leftmost; eauto.
    + right. now exists r3.
  - simpl. intros [= <-].
    exists pre, s1, r2, EmptyString. subst r1.
    assert (Hnil : forall s, s ++ "" = s).
    { induction s as [|c s IH]; simpl; [reflexivity | now rewrite IH]. }
    rewrite !Hnil. repeat apply conj.
    + reflexivity.
    + exact E1.
    + reflexivity.
    + exact H2.
    + unfold contains. now rewrite H3.
    + now left.
Qed.

(** [parse] on plain [parse]: too few occurrences raise [IndexError]. *)
Lemma parse_short_raises (input_type output nos d : string) :
  applicable input_type = true ->
  delimiter_of nos = Some d ->
  str_count output d < 2 ->
  parse input_type output nos = Raise IndexError.
Proof.
  intros Hty Hd Hcount. pose proof (delimiter_of_nonempty _ _ Hd) as Hne.
  rewrite parse_by_table, Hty, Hd.
  rewrite (str_count_unfold d Hne) in Hcount.
  rewrite (str_split_unfold d Hne).
  destruct (partition d output) as [[pre r1]|] eqn:H1; [|reflexivity].
  rewrite (str_count_unfold d Hne) in Hcount.
  rewrite (str_split_unfold d Hne r1).
  destruct (partition d r1) as [[s1 r2]|] eqn:H2; [lia|].
  reflexivity.
Qed.

(** X1: for a community or AS-path lookup on a NOS of the table,
    [Execute.parse] returns a text exactly when the delimiter occurs at
    least twice in the raw output. *)
Theorem parse_returns_iff (self : Execute.t) (output nos d : string) :
  In (Execute.input_type self) ["bgp_community"; "bgp_aspath"] ->
  delimiter_of nos = Some d ->
  ((exists r, Execute.parse self output nos = Return r) <->
   2 <= str_count output d).
Proof.
  intros Hty Hd. apply str_in_In in Hty.
  pose proof (delimiter_of_nonempty _ _ Hd) as Hne.
  unfold Execute.parse. split.
  - intros [r Hr].
    destruct (Nat.lt_ge_cases (str_count output d) 2) as [Hlt|Hge];
      [|exact Hge].
    rewrite (parse_short_raises _ _ _ _ Hty Hd Hlt) in Hr. discriminate.
  - intros Hcount. rewrite parse_by_table.
    unfold applicable in Hty. unfold applicable. rewrite Hty, Hd.
    rewrite (str_count_unfold d Hne) in Hcount.
    rewrite (str_split_unfold d Hne).
    destruct (partition d output) as [[pre r1]|] eqn:H1; [|lia].
    rewrite (str_count_unfold d Hne) in Hcount.
    rewrite (str_split_unfold d Hne r1).
    destruct (partition d r1) as [[s1 r2]|] eqn:H2; [|lia].
    rewrite (str_split_total d r2 Hne). simpl.
    destruct (split_fuel (String.length r2) d r2) as [|s2 rest] eqn:Hs.
    + pose proof (split_fuel_length d (String.length r2) r2) as Hl.
      rewrite Hs in Hl. discriminate.
    + simpl. eexists. reflexivity.
Qed.

Lemma parse_returns_iff_witness :
  (exists r,
      Execute.parse (Sample.ask "pop3" "bgp_aspath" "_65000$")
        "Address Family: IPv4 Address Family: IPv6" "cisco_xr" = Return r)
  <-> 2 <= str_count "Address Family: IPv4 Address Family: IPv6"
                     "Address Family: ".
Proof.
  apply (parse_returns_iff (Sample.ask "pop3" "bgp_aspath" "_65000$")
           _ "cisco_xr" "Address Family: ").
  - simpl. right. left. reflexivity.
  - reflexivity.
Defined.

(** X2: what [Execute.parse] returns on the applicable branch is one
    contiguous part of the raw output: it starts at the leftmost
    occurrence of the delimiter, the text dropped before it holds no
    delimiter, and the text dropped after it is empty or starts with the
    delimiter (the third occurrence). *)
Theorem parse_result_is_infix (self : Execute.t) (output nos d r : string) :
  In (Execute.input_type self) ["bgp_community"; "bgp_aspath"] ->
  delimiter_of nos = Some d ->
  Execute.parse self output nos = Return r ->
  exists pre post,
    output = pre ++ r ++ post /\
    contains d pre = false /\
    strip_prefix d r <> None /\
    (post = EmptyString \/ exists rest, post = d ++ rest).
Proof.
  intros Hty Hd Hr. apply str_in_In in Hty.
  pose proof (delimiter_of_nonempty _ _ Hd) as Hne.
  destruct (parse_sections _ _ _ _ _ Hty Hd Hr)
    as (pre & s1 & s2 & post & Hreq & Hout & H1 & _ & _ & Hpost).
  exists pre, post. repeat split; try assumption.
  - eapply partition_leftmost; eauto.
  - rewrite Hreq, strip_prefix_complete. discriminate.
Qed.

Lemma parse_result_is_infix_witness :
  exists pre post,
    "show bgp For address family: IPv4 For address family: IPv6 For address family: VPNv4"
    = pre ++ "For address family: IPv4 For address family: IPv6 " ++ post /\
    contains "For address family: " pre = false /\
    strip_prefix "For address family: "
      "For address family: IPv4 For address family: IPv6 " <> None /\
    (post = EmptyString \/ exists rest, post = "For address family: " ++ rest).
Proof.
  apply (parse_result_is_infix (Sample.ask "pop3" "bgp_community" "65000:1")
           _ "cisco_ios" "For address family: ").
  - simpl. left. reflexivity.
  - reflexivity.
  - vm_compute. reflexivity.
Defined.

(** X3: [Execute.parse] is idempotent: parsing again what it returned
    returns it unchanged, for every query type and NOS. *)
Theorem parse_idempotent (self : Execute.t) (output nos r : string) :
  Execute.parse self output nos = Return r ->
  Execute.parse self r nos = Return r.
Proof.
  unfold Execute.parse. intros Hr.
  destruct (applicable (Execute.input_type self)) eqn:Hty.
  - destruct (delimiter_of nos) as [d|] eqn:Hd.
    + pose proof (delimiter_of_nonempty _ _ Hd) as Hne.
      destruct (parse_sections _ _ _ _ _ Hty Hd Hr)
        as (pre & s1 & s2 & post & Hreq & _ & _ & H2 & Hs2 & _).
      rewrite parse_by_table, Hty, Hd.
      rewrite (str_split_unfold d Hne r).
      assert (Hfirst : partition d r = Some (EmptyString, s1 ++ d ++ s2)).
      { rewrite partition_eq, Hreq. now rewrite strip_prefix_complete. }
      rewrite Hfirst.
      rewrite (str_split_unfold d Hne (s1 ++ d ++ s2)).
      rewrite (partition_stable d s1 (s2 ++ post) s2 H2).
      rewrite (str_split_unfold d Hne s2).
      unfold contains in Hs2.
      destruct (partition d s2) as [[? ?]|]; [discriminate|].
      simpl. now rewrite Hreq.
    + rewrite parse_by_table, Hty, Hd in *. congruence.
  - rewrite parse_by_table, Hty in *. congruence.
Qed.

Lemma parse_idempotent_witness :
  Execute.parse (Sample.ask "pop3" "bgp_community" "65000:1")
    "For address family: IPv4 For address family: IPv6 " "cisco_ios"
  = Return "For address family: IPv4 For address family: IPv6 ".
Proof.
  apply (parse_idempotent (Sample.ask "pop3" "bgp_community" "65000:1")
           "show bgp For address family: IPv4 For address family: IPv6 For address family: VPNv4").
  vm_compute. reflexivity.
Defined.

(** ** The executors, whatever the network replies *)

(** X4: [Netmiko.direct] has three kinds of outcome and no other. Both
    calls succeed and it returns the output of the command with the valid
    status; or one of them raises a listed netmiko exception, and it
    returns the general message with the invalid status, the command not
    being sent when the session did not open; or one of them raises
    another exception, which reaches the caller. *)
Theorem direct_outcomes (E : env) (self : Netmiko.t) (h : trace) :
  let opened := (h ++ [EvConnect (Netmiko.nm_host self)])%list in
  let sent := (opened ++ [EvSendCommand (Netmiko.command self)])%list in
  (exists response,
      connect_reply E opened = Return tt /\
      send_command_reply E sent = Return response /\
      Netmiko.direct E self h = (Return (response, code_valid E), sent))
  \/
  (exists e,
      In e Netmiko.netmiko_errors /\
      ((connect_reply E opened = Raise e /\
        Netmiko.direct E self h =
        (Return (messages_general E, code_invalid E), opened)) \/
       (connect_reply E opened = Return tt /\
        send_command_reply E sent = Raise e /\
        Netmiko.direct E self h =
        (Return (messages_general E, code_invalid E), sent))))
  \/
  (exists e,
      ~ In e Netmiko.netmiko_errors /\
      ((connect_reply E opened = Raise e /\
        Netmiko.direct E self h = (Raise e, opened)) \/
       (connect_reply E opened = Return tt /\
        send_command_reply E sent = Raise e /\
        Netmiko.direct E self h = (Raise e, sent)))).
Proof.
  intros opened sent.
  unfold Netmiko.direct, try_except, bind, Netmiko.ConnectHandler,
    Netmiko.send_command, io, Netmiko.netmiko_except, ret, raise.
  fold opened.
  destruct (connect_reply E opened) as [[]|e] eqn:Hc.
  - fold sent. destruct (send_command_reply E sent) as [response|e] eqn:Hs.
    + left. exists response. auto.
    + destruct (exn_in e Netmiko.netmiko_errors) eqn:He.
      * right. left. exists e. apply exn_in_In in He. auto.
      * right. right. exists e. split; [|auto].
        intros Hin. apply exn_in_In in Hin. congruence.
  - destruct (exn_in e Netmiko.netmiko_errors) eqn:He.
    + right. left. exists e. apply exn_in_In in He. auto.
    + right. right. exists e. split; [|auto].
      intros Hin. apply exn_in_In in Hin. congruence.
Qed.

(** X5: [Rest.frr] sends at most one request: whatever is replied, the
    events it adds are none (the POST call itself raised or gave nothing
    to await) or the one request to [http://address:port/frr]; and when
    the exchange completes and the body can be read, it returns the body
    and the HTTP status as they came. *)
Theorem frr_single_request (E : env) (self : Rest.t) (h : trace) :
  (snd (Rest.frr E self h) = h \/
   exists request,
     client_post E (Rest.request self "/frr") = Return (Awaitable request) /\
     snd (Rest.frr E self h) = (h ++ [EvHttp request])%list) /\
  (forall request reply body,
      client_post E (Rest.request self "/frr") = Return (Awaitable request) ->
      http_reply E (h ++ [EvHttp request])%list = Return reply ->
      text reply = Return body ->
      Rest.frr E self h =
      (Return (body, status_code reply), (h ++ [EvHttp request])%list)).
Proof.
  unfold Rest.frr, try_except, Rest.frr_try, bind, lift, await, io,
    Rest.rest_except, ret, raise.
  split.
  - destruct (client_post E (Rest.request self "/frr")) as [[request|r]|e].
    + right. exists request. split; [reflexivity|].
      destruct (http_reply E _) as [reply|e]; simpl.
      * destruct (text reply) as [body|e]; simpl; [reflexivity|].
        destruct (exn_in e Rest.rest_errors); reflexivity.
      * destruct (exn_in e Rest.rest_errors); reflexivity.
    + left. reflexivity.
    + left. destruct (exn_in e Rest.rest_errors); reflexivity.
  - intros request reply body Hpost Hreply Hbody.
    rewrite Hpost. simpl. rewrite Hreply, Hbody. reflexivity.
Qed.

Lemma frr_single_request_witness :
  Rest.frr Cases.agent_broken (Sample.rest_connection "frr") [] =
  (Return ("Internal Server Error", 500%Z),
   [EvHttp (Rest.request (Sample.rest_connection "frr") "/frr")]).
Proof.
  exact (proj2 (frr_single_request Cases.agent_broken
                  (Sample.rest_connection "frr") [])
           (Rest.request (Sample.rest_connection "frr") "/frr")
           {| text := Return "Internal Server Error"; status_code := 500 |}
           "Internal Server Error" eq_refl eq_refl eq_refl).
Defined.

Lemma bird_trace (E : env) (self : Rest.t) (h : trace) :
  snd (Rest.bird E self h) = h.
Proof.
  unfold Rest.bird, try_except, Rest.bird_try, bind, lift,
    Rest.rest_except, ret, raise.
  destruct (client_post E (Rest.request self "/bird")) as [obj|e].
  - destruct (get_text obj) as [body|e].
    + destruct (get_status_code obj) as [status|e]; [reflexivity|].
      destruct (exn_in e Rest.rest_errors); reflexivity.
    + destruct (exn_in e Rest.rest_errors); reflexivity.
  - destruct (exn_in e Rest.rest_errors); reflexivity.
Qed.

(** X6: [Rest.bird] performs no event at all, whatever the client and the
    agent would do; and as soon as the POST call hands back something to
    await, it raises [AttributeError]. *)
Theorem bird_sends_nothing (E : env) (self : Rest.t) (h : trace) :
  snd (Rest.bird E self h) = h /\
  (forall request,
      client_post E (Rest.request self "/bird") = Return (Awaitable request) ->
      Rest.bird E self h = (Raise AttributeError, h)).
Proof.
  split.
  - apply bird_trace.
  - intros request Hpost. now apply bird_never_awaits with (request := request).
Qed.

Lemma bird_sends_nothing_witness :
  snd (Rest.bird Sample.agent_up (Sample.rest_connection "bird") []) = [] /\
  Rest.bird Sample.agent_up (Sample.rest_connection "bird") [] =
  (Raise AttributeError, []).
Proof.
  destruct (bird_sends_nothing Sample.agent_up
              (Sample.rest_connection "bird") []) as [Hquiet Hraise].
  split; [exact Hquiet|].
  exact (Hraise (Rest.request (Sample.rest_connection "bird") "/bird")
           eq_refl).
Defined.

(** X7: when the traversal has opened the bastion session, written the
    jump command and read the channel, a listed netmiko exception raised
    afterwards -- while answering the prompts, at the redispatch or by the
    command -- is converted: [Netmiko.proxied] returns the general message
    with the invalid status. *)
Theorem proxied_target_failure_converted (E : env) (self : Netmiko.t)
    (h : trace) (name : string) (device_proxy : Proxy.t)
    (proxy_output : string) (e : exn) :
  let nm_ssh_command :=
    format E (Proxy.ssh_command device_proxy) (Netmiko.nm_host self) ++ LF in
  let opened := (h ++ [EvConnect (Netmiko.nm_proxy device_proxy)])%list in
  let written := (opened ++ [EvWrite nm_ssh_command])%list in
  let settled := (written ++ [EvSleep 1; EvRead])%list in
  Device.proxy (Netmiko.device self) = Some name ->
  proxies E name = Some device_proxy ->
  connect_reply E opened = Return tt ->
  write_reply E written = Return tt ->
  read_reply E settled = Return proxy_output ->
  In e Netmiko.netmiko_errors ->
  fst (Netmiko.proxied_try E self proxy_output settled) = Raise e ->
  Netmiko.proxied E self h =
  (Return (messages_general E, code_invalid E),
   snd (Netmiko.proxied_try E self proxy_output settled)).
Proof.
  intros nm_ssh_command opened written settled Hname Hproxy Hc Hw Hr He
    Hraise.
  pose proof (proxied_reaches_try E self h name device_proxy proxy_output
                Hname Hproxy Hc Hw Hr) as Hrun.
  cbv zeta in Hrun. fold nm_ssh_command opened written settled in Hrun.
  rewrite Hrun. now apply proxied_try_errors_converted with (e := e).
Qed.

Lemma proxied_target_failure_converted_witness :
  Netmiko.proxied Cases.target_silent Sample.proxied_connection [] =
  (Return ("Something went wrong.", 415%Z),
   snd (Netmiko.proxied_try Cases.target_silent Sample.proxied_connection
          "router#" Sample.settled)).
Proof.
  apply (proxied_target_failure_converted Cases.target_silent
           Sample.proxied_connection [] "jump1" Sample.jump1 "router#"
           NetMikoTimeoutException);
    try reflexivity.
  simpl. right. left. reflexivity.
Defined.


(** ** The orchestrator on each transport *)

Lemma rest_init_returns (E : env) (transport : string) (device : Device.t)
    (query_type target : string) (h : trace) (cred : Credential.t)
    (method : string -> string -> constructed) :
  credentials E (Device.credential device) = Some cred ->
  Construct E device query_type = Some method ->
  Rest.__init__ E transport device query_type target h =
  (Return {| Rest.transport := transport; Rest.device := device;
             Rest.query_type := query_type; Rest.target := target;
             Rest.cred := cred; Rest.query := method transport target |},
   h ++ [EvConstruct transport query_type target])%list.
Proof.
  intros Hcred Hmethod.
  unfold Rest.__init__, bind, lift, getattr, io, ret.
  now rewrite Hcred, Hmethod.
Qed.

(** The constructor of [Rest] either raises at once or returns after the
    one call of [Construct]. *)
Lemma rest_init_outcomes (E : env) (transport : string) (device : Device.t)
    (query_type target : string) (h : trace) :
  (exists e,
      Rest.__init__ E transport device query_type target h = (Raise e, h)) \/
  (exists connection,
      Rest.__init__ E transport device query_type target h =
      (Return connection,
       h ++ [EvConstruct transport query_type target])%list).
Proof.
  unfold Rest.__init__, bind, lift, getattr, io, ret.
  destruct (credentials E (Device.credential device)) as [cred|];
    [|left; eexists; reflexivity].
  destruct (Construct E device query_type) as [method|];
    [|left; eexists; reflexivity].
  right. eexists. reflexivity.
Qed.

Lemma netmiko_init_returns (E : env) (transport : string)
    (device : Device.t) (self : Execute.t) (h : trace)
    (cred : Credential.t) (method : string -> string -> constructed)
    (location nos command : string) :
  credentials E (Device.credential device) = Some cred ->
  Construct E device (Execute.input_type self) = Some method ->
  method transport (Execute.input_target self) = Triple location nos command ->
  Netmiko.__init__ E transport device (Execute.input_type self)
    (Execute.input_target self) h =
  (Return (Cases.netmiko_instance device cred self location nos command),
   h ++ [EvConstruct transport (Execute.input_type self)
           (Execute.input_target self)])%list.
Proof.
  intros Hcred Hmethod Hbuilt.
  unfold Netmiko.__init__, bind, lift, getattr, io, ret.
  now rewrite Hcred, Hmethod, Hbuilt.
Qed.

Lemma rest_dispatch_frr (E : env) (connection : Rest.t) :
  Execute.rest_dispatch E connection "frr" = Rest.frr E connection.
Proof. reflexivity. Qed.

Lemma rest_dispatch_bird (E : env) (connection : Rest.t) :
  Execute.rest_dispatch E connection "bird" =
  bind (Rest.bird E connection) (fun _ => raise TypeError).
Proof. reflexivity. Qed.

(** X9: a validated query for a device whose NOS is [bird] never gets an
    answer: [Execute.response] raises, without any network event. Either
    the constructor or [Rest.bird] raises, or [Rest.bird] returns its
    tuple and awaiting that tuple raises [TypeError]. *)
Theorem response_bird_never_returns (E : env) (self : Execute.t)
    (h : trace) (device_config : Device.t)
    (check : string -> bool * string * Z) (msg : string) (status : Z) :
  devices E (Execute.input_location self) = Some device_config ->
  Validate E device_config (Execute.input_type self) = Some check ->
  check (Execute.input_target self) = (true, msg, status) ->
  Device.nos device_config = "bird" ->
  is_rest E "bird" = true ->
  exists e events,
    Execute.response E self h = (Raise e, h ++ events)%list /\
    forallb (fun ev => negb (is_network_io ev)) events = true.
Proof.
  intros Hdev Hval Hcheck Hnos Hrest.
  unfold Execute.response.
  unfold bind at 1, lift at 1, getattr at 1. rewrite Hdev.
  unfold bind at 1, lift at 1, getattr at 1. rewrite Hval.
  unfold bind at 1, io at 1. rewrite Hcheck. cbn [negb].
  rewrite Hnos, Hrest.
  set (validated := (h ++ [EvValidate (Execute.input_type self)
                             (Execute.input_target self)])%list).
  unfold bind at 1.
  destruct (rest_init_outcomes E "rest" device_config
              (Execute.input_type self) (Execute.input_target self)
              validated) as [[e Hinit] | [connection Hinit]];
    rewrite Hinit.
  - exists e. eexists. split; [reflexivity|]. reflexivity.
  - rewrite rest_dispatch_bird. unfold bind, raise.
    pose proof (bird_trace E connection
                  (validated ++ [EvConstruct "rest" (Execute.input_type self)
                                   (Execute.input_target self)])%list)
      as Htrace.
    destruct (Rest.bird E connection _) as [[result|e] h'];
      simpl in Htrace; subst h'; unfold validated.
    + exists TypeError. eexists. rewrite <- app_assoc.
      split; reflexivity.
    + exists e. eexists. rewrite <- app_assoc. split; reflexivity.
Qed.

Lemma response_bird_never_returns_witness :
  exists e events,
    Execute.response Sample.agent_up
      (Sample.ask "pop2" "bgp_route" "192.0.2.0/24") [] =
    (Raise e, [] ++ events)%list /\
    forallb (fun ev => negb (is_network_io ev)) events = true.
Proof.
  apply (response_bird_never_returns Sample.agent_up
           (Sample.ask "pop2" "bgp_route" "192.0.2.0/24") []
           (Sample.router "bird" None "pop2") Sample.check
           "Valid Query" 200%Z);
    reflexivity.
Defined.

(** X10: for a validated query on a device whose NOS is [frr],
    [Execute.response] is [Rest.frr] on the instance built from the
    device: the normalizer leaves the outcome of the REST executor as it
    is, whatever the query type. *)
Theorem response_frr_unchanged (E : env) (self : Execute.t) (h : trace)
    (device_config : Device.t) (check : string -> bool * string * Z)
    (msg : string) (status : Z) (cred : Credential.t)
    (method : string -> string -> constructed) :
  devices E (Execute.input_location self) = Some device_config ->
  Validate E device_config (Execute.input_type self) = Some check ->
  check (Execute.input_target self) = (true, msg, status) ->
  Device.nos device_config = "frr" ->
  is_rest E "frr" = true ->
  credentials E (Device.credential device_config) = Some cred ->
  Construct E device_config (Execute.input_type self) = Some method ->
  Execute.response E self h =
  Rest.frr E (Cases.rest_instance device_config method cred self)
    (h ++ [EvValidate (Execute.input_type self) (Execute.input_target self);
           EvConstruct "rest" (Execute.input_type self)
             (Execute.input_target self)])%list.
Proof.
  intros Hdev Hval Hcheck Hnos Hrest Hcred Hmethod.
  unfold Execute.response.
  unfold bind at 1, lift at 1, getattr at 1. rewrite Hdev.
  unfold bind at 1, lift at 1, getattr at 1. rewrite Hval.
  unfold bind at 1, io at 1. rewrite Hcheck. cbn [negb].
  rewrite Hnos, Hrest.
  unfold bind at 1.
  rewrite (rest_init_returns E "rest" device_config _ _ _ cred method
             Hcred Hmethod).
  rewrite <- app_assoc. simpl app.
  rewrite rest_dispatch_frr. unfold bind at 1.
  unfold Cases.rest_instance.
  destruct (Rest.frr E _ _) as [[[raw_output status']|e] h']; [|reflexivity].
  unfold bind, lift, ret, Execute.parse, parse.
  destruct (str_in (Execute.input_type self) _); reflexivity.
Qed.

Lemma response_frr_unchanged_witness :
  Execute.response Cases.agent_broken
    (Sample.ask "pop1" "bgp_community" "65000:1") [] =
  Rest.frr Cases.agent_broken
    (Cases.rest_instance (Sample.router "frr" None "pop1")
       (Sample.build (Sample.router "frr" None "pop1") "bgp_community")
       Sample.admin (Sample.ask "pop1" "bgp_community" "65000:1"))
    ([] ++ [EvValidate "bgp_community" "65000:1";
            EvConstruct "rest" "bgp_community" "65000:1"])%list.
Proof.
  apply (response_frr_unchanged Cases.agent_broken
           (Sample.ask "pop1" "bgp_community" "65000:1") []
           (Sample.router "frr" None "pop1") Sample.check
           "Valid Query" 200%Z);
    reflexivity.
Defined.

(** X11: on the direct scrape path the normalizer is applied to whatever
    [Netmiko.direct] returned, its failure message included. For a
    community or AS-path lookup on a NOS of the table, when the session
    fails and the general message holds the delimiter fewer than two
    times, the caller gets an [IndexError] and not the general message
    with the invalid status. *)
Theorem response_failure_is_parsed (E : env) (self : Execute.t) (h : trace)
    (device_config : Device.t) (check : string -> bool * string * Z)
    (msg : string) (status : Z) (cred : Credential.t)
    (method : string -> string -> constructed)
    (location nos command d : string) :
  devices E (Execute.input_location self) = Some device_config ->
  Validate E device_config (Execute.input_type self) = Some check ->
  check (Execute.input_target self) = (true, msg, status) ->
  is_rest E (Device.nos device_config) = false ->
  is_scrape E (Device.nos device_config) = true ->
  credentials E (Device.credential device_config) = Some cred ->
  Construct E device_config (Execute.input_type self) = Some method ->
  method "scrape" (Execute.input_target self) = Triple location nos command ->
  Execute.truthy (Device.proxy device_config) = false ->
  In (Execute.input_type self) ["bgp_community"; "bgp_aspath"] ->
  delimiter_of (Device.nos device_config) = Some d ->
  str_count (messages_general E) d < 2 ->
  fst (Netmiko.direct E
         (Cases.netmiko_instance device_config cred self location nos command)
         (h ++ [EvValidate (Execute.input_type self)
                  (Execute.input_target self);
                EvConstruct "scrape" (Execute.input_type self)
                  (Execute.input_target self)])%list)
  = Return (messages_general E, code_invalid E) ->
  fst (Execute.response E self h) = Raise IndexError.
Proof.
  intros Hdev Hval Hcheck Hrest Hscrape Hcred Hmethod Hbuilt Hproxy Hty Hd
    Hcount Hdirect.
  apply str_in_In in Hty.
  unfold Execute.response.
  unfold bind at 1, lift at 1, getattr at 1. rewrite Hdev.
  unfold bind at 1, lift at 1, getattr at 1. rewrite Hval.
  unfold bind at 1, io at 1. rewrite Hcheck. cbn [negb].
  rewrite Hrest, Hscrape, Hproxy.
  unfold bind at 1.
  rewrite (netmiko_init_returns E "scrape" device_config self _ cred method
             location nos command Hcred Hmethod Hbuilt).
  rewrite <- app_assoc. simpl app.
  unfold bind at 1.
  destruct (Netmiko.direct E _ _) as [[result|e] h']; simpl in Hdirect;
    [|discriminate].
  injection Hdirect as ->.
  unfold bind, lift, Execute.parse.
  now rewrite (parse_short_raises _ _ _ _ Hty Hd Hcount).
Qed.

Lemma response_failure_is_parsed_witness :
  fst (Execute.response Sample.bastion_rejects
         (Sample.ask "pop3" "bgp_community" "65000:1") [])
  = Raise IndexError.
Proof.
  apply (response_failure_is_parsed Sample.bastion_rejects
           (Sample.ask "pop3" "bgp_community" "65000:1") []
           (Sample.router "cisco_ios" None "pop3") Sample.check
           "Valid Query" 200%Z Sample.admin
           (Sample.build (Sample.router "cisco_ios" None "pop3")
              "bgp_community")
           "192.0.2.1" "cisco_ios" "show bgp_community 65000:1"
           "For address family: ");
    try reflexivity.
  - simpl. left. reflexivity.
  - vm_compute. lia.
Defined.

(** X12: a validated query for a scrape device whose proxy name is not
    among the loaded proxies raises [AttributeError] out of
    [Execute.response] before any session is opened. *)
Theorem response_missing_proxy (E : env) (self : Execute.t) (h : trace)
    (device_config : Device.t) (check : string -> bool * string * Z)
    (msg : string) (status : Z) (cred : Credential.t)
    (method : string -> string -> constructed)
    (location nos command name : string) :
  devices E (Execute.input_location self) = Some device_config ->
  Validate E device_config (Execute.input_type self) = Some check ->
  check (Execute.input_target self) = (true, msg, status) ->
  is_rest E (Device.nos device_config) = false ->
  is_scrape E (Device.nos device_config) = true ->
  credentials E (Device.credential device_config) = Some cred ->
  Construct E device_config (Execute.input_type self) = Some method ->
  method "scrape" (Execute.input_target self) = Triple location nos command ->
  Device.proxy device_config = Some name ->
  name <> EmptyString ->
  proxies E name = None ->
  Execute.response E self h =
  (Raise AttributeError,
   h ++ [EvValidate (Execute.input_type self) (Execute.input_target self);
         EvConstruct "scrape" (Execute.input_type self)
           (Execute.input_target self)])%list.
Proof.
  intros Hdev Hval Hcheck Hrest Hscrape Hcred Hmethod Hbuilt Hname Hne
    Hproxy.
  unfold Execute.response.
  unfold bind at 1, lift at 1, getattr at 1. rewrite Hdev.
  unfold bind at 1, lift at 1, getattr at 1. rewrite Hval.
  unfold bind at 1, io at 1. rewrite Hcheck. cbn [negb].
  rewrite Hrest, Hscrape, Hname.
  unfold bind at 1.
  rewrite (netmiko_init_returns E "scrape" device_config self _ cred method
             location nos command Hcred Hmethod Hbuilt).
  rewrite <- app_assoc. simpl app.
  destruct name as [|c name']; [congruence|]. cbn [Execute.truthy].
  unfold bind at 1, Netmiko.proxied.
  unfold bind at 1, lift, getattr. simpl Netmiko.device.
  now rewrite Hname, Hproxy.
Qed.

Lemma response_missing_proxy_witness :
  Execute.response Cases.lost_bastion
    (Sample.ask "pop7" "bgp_route" "192.0.2.0/24") [] =
  (Raise AttributeError,
   [] ++ [EvValidate "bgp_route" "192.0.2.0/24";
          EvConstruct "scrape" "bgp_route" "192.0.2.0/24"])%list.
Proof.
  apply (response_missing_proxy Cases.lost_bastion
           (Sample.ask "pop7" "bgp_route" "192.0.2.0/24") []
           Cases.stranded Sample.check "Valid Query" 200%Z Sample.admin
           (Sample.build Cases.stranded "bgp_route")
           "192.0.2.1" "cisco_ios" "show bgp_route 192.0.2.0/24" "jump9");
    try reflexivity.
  discriminate.
Defined.

(** ** What is sent, and when *)

(** X13: [Netmiko.proxied] never returns what the bastion or the login
    printed. Whatever the network replies, a pair it returns is the output
    of the final command with the valid status, that command being the
    last event, or the general message with the invalid status. *)
Theorem proxied_returns_command_output (E : env) (self : Netmiko.t)
    (h : trace) (output : string) (status : Z) :
  fst (Netmiko.proxied E self h) = Return (output, status) ->
  (status = code_valid E /\
   exists before,
     snd (Netmiko.proxied E self h) =
     (before ++ [EvSendCommand (Netmiko.command self)])%list /\
     send_command_reply E (before ++ [EvSendCommand (Netmiko.command self)])%list
     = Return output) \/
  (output = messages_general E /\ status = code_invalid E).
Proof.
  destruct (Netmiko.proxied E self h) as [o t] eqn:Hrun. simpl.
  intros ->. revert Hrun.
  unfold Netmiko.proxied.
  unfold bind at 1. destruct (lift _ h) as [[device_proxy|e] h0];
    [|discriminate].
  unfold bind at 1. destruct (Netmiko.ConnectHandler E _ h0) as [[[]|e] h1];
    [|discriminate].
  unfold bind at 1. destruct (Netmiko.write_channel E _ h1) as [[[]|e] h2];
    [|discriminate].
  unfold bind at 1. destruct (Netmiko.sleep 1 h2) as [[[]|e] h3];
    [|discriminate].
  unfold bind at 1. destruct (Netmiko.read_channel E h3)
    as [[proxy_output|e] h4]; [|discriminate].
  unfold try_except, Netmiko.proxied_try.
  unfold bind at 1.
  destruct (Netmiko.proxied_login E self proxy_output h4) as [[answered|e] h5].
  - unfold bind at 1, Netmiko.redispatch, io.
    destruct (redispatch_reply E _) as [[]|e].
    + unfold bind, Netmiko.send_command, io, ret.
      destruct (send_command_reply E _) as [response|e] eqn:Hsent.
      * intros [= <- <- <-]. left. split; [reflexivity|].
        eexists. split; [reflexivity | exact Hsent].
      * unfold Netmiko.netmiko_except, ret, raise.
        destruct (exn_in e Netmiko.netmiko_errors);
          [intros [= <- <- <-]; now right | discriminate].
    + unfold Netmiko.netmiko_except, ret, raise.
      destruct (exn_in e Netmiko.netmiko_errors);
        [intros [= <- <- <-]; now right | discriminate].
  - unfold Netmiko.netmiko_except, ret, raise.
    destruct (exn_in e Netmiko.netmiko_errors);
      [intros [= <- <- <-]; now right | discriminate].
Qed.

Lemma proxied_returns_command_output_witness :
  (200%Z = 200%Z /\
   exists before,
     snd (Netmiko.proxied (Sample.sessions "Password: " "router#")
            Sample.proxied_connection []) =
     (before ++ [EvSendCommand "show bgp_route 192.0.2.0/24"])%list /\
     send_command_reply (Sample.sessions "Password: " "router#")
       (before ++ [EvSendCommand "show bgp_route 192.0.2.0/24"])%list
     = Return "route info") \/
  ("route info" = "Something went wrong." /\ 200%Z = 415%Z).
Proof.
  apply (proxied_returns_command_output
           (Sample.sessions "Password: " "router#")
           Sample.proxied_connection [] "route info" 200%Z).
  reflexivity.
Defined.

Section Appending.

Context {A B : Type}.

Lemma appends_ret (a : A) : appends (ret a).
Proof. intros h. exists []. simpl. now rewrite app_nil_r. Qed.

Lemma appends_raise (e : exn) : appends (@raise A e).
Proof. intros h. exists []. simpl. now rewrite app_nil_r. Qed.

Lemma appends_lift (o : outcome A) : appends (lift o).
Proof. intros h. exists []. simpl. now rewrite app_nil_r. Qed.

Lemma appends_io (ev : event) (reply : trace -> outcome A) :
  appends (io ev reply).
Proof. intros h. exists [ev]. reflexivity. Qed.

Lemma appends_bind (c : M A) (k : A -> M B) :
  appends c -> (forall a, appends (k a)) -> appends (bind c k).
Proof.
  intros Hc Hk h. unfold bind. destruct (Hc h) as [evs Hevs].
  destruct (c h) as [[a|e] h']; simpl in Hevs; subst h'.
  - destruct (Hk a (h ++ evs)%list) as [evs' Hevs'].
    exists (evs ++ evs')%list. now rewrite Hevs', app_assoc.
  - now exists evs.
Qed.

Lemma appends_try (body : M A) (handler : exn -> M A) :
  appends body -> (forall e, appends (handler e)) ->
  appends (try_except body handler).
Proof.
  intros Hb Hh h. unfold try_except. destruct (Hb h) as [evs Hevs].
  destruct (body h) as [[a|e] h']; simpl in Hevs; subst h'.
  - now exists evs.
  - destruct (Hh e (h ++ evs)%list) as [evs' Hevs'].
    exists (evs ++ evs')%list. now rewrite Hevs', app_assoc.
Qed.

End Appending.

Ltac appending :=
  repeat first
    [ apply appends_bind; [|intros ?]
    | apply appends_try; [|intros ?]
    | apply appends_ret
    | apply appends_raise
    | apply appends_lift
    | apply appends_io
    | match goal with
      | |- appends (if ?b then _ else _) => destruct b
      | |- appends (match ?x with _ => _ end) => destruct x
      end ].

Lemma appends_frr (E : env) (self : Rest.t) : appends (Rest.frr E self).
Proof.
  unfold Rest.frr, Rest.frr_try, Rest.rest_except, await. appending.
Qed.

Lemma appends_bird (E : env) (self : Rest.t) : appends (Rest.bird E self).
Proof. unfold Rest.bird, Rest.bird_try, Rest.rest_except. appending. Qed.

Lemma appends_direct (E : env) (self : Netmiko.t) :
  appends (Netmiko.direct E self).
Proof.
  unfold Netmiko.direct, Netmiko.netmiko_except, Netmiko.ConnectHandler,
    Netmiko.send_command.
  appending.
Qed.

Lemma appends_proxied (E : env) (self : Netmiko.t) :
  appends (Netmiko.proxied E self).
Proof.
  unfold Netmiko.proxied, Netmiko.proxied_try, Netmiko.proxied_login,
    Netmiko.netmiko_except, Netmiko.ConnectHandler, Netmiko.write_channel,
    Netmiko.read_channel, Netmiko.sleep, Netmiko.redispatch,
    Netmiko.send_command.
  appending.
Qed.

Lemma appends_after_validation (E : env) (self : Execute.t)
    (device_config : Device.t) (validated_status : Z) :
  appends
    (if is_rest E (Device.nos device_config) then
       (connection <- Rest.__init__ E "rest" device_config
                        (Execute.input_type self) (Execute.input_target self) ;;
        result <- Execute.rest_dispatch E connection
                    (Device.nos device_config) ;;
        let '(raw_output, status) := result in
        output <- lift (Execute.parse self raw_output
                          (Device.nos device_config)) ;;
        ret (output, status))%io
     else if is_scrape E (Device.nos device_config) then
       (connection <- Netmiko.__init__ E "scrape" device_config
                        (Execute.input_type self) (Execute.input_target self) ;;
        result <- (if Execute.truthy (Device.proxy device_config)
                   then Netmiko.proxied E connection
                   else Netmiko.direct E connection) ;;
        let '(raw_output, status) := result in
        output <- lift (Execute.parse self raw_output
                          (Device.nos device_config)) ;;
        ret (output, status))%io
     else ret (messages_general E, validated_status)).
Proof.
  destruct (is_rest E (Device.nos device_config)).
  - apply appends_bind; [unfold Rest.__init__; appending|]. intros connection.
    apply appends_bind.
    + unfold Execute.rest_dispatch.
      destruct (String.eqb _ "frr"); [apply appends_frr|].
      destruct (String.eqb _ "bird").
      * apply appends_bind; [apply appends_bird | intros; apply appends_raise].
      * repeat match goal with
               | |- appends (if ?b then _ else _) => destruct b
               end;
          apply appends_raise.
    + intros [raw_output status]. appending.
  - destruct (is_scrape E (Device.nos device_config)); [|apply appends_ret].
    apply appends_bind; [unfold Netmiko.__init__; appending|].
    intros connection. apply appends_bind.
    + destruct (Execute.truthy _); [apply appends_proxied | apply appends_direct].
    + intros [raw_output status]. appending.
Qed.

(** X14: [Execute.response] touches the network only for a query that
    the validator accepted: whatever the configuration and the replies,
    if one of the events it performed is a network event, then the device
    was found, its validator method was found, and that method answered
    with a true validity. *)
Theorem response_network_needs_validation (E : env) (self : Execute.t)
    (h : trace) :
  exists events,
    snd (Execute.response E self h) = (h ++ events)%list /\
    (existsb is_network_io events = true ->
     exists device_config check msg status,
       devices E (Execute.input_location self) = Some device_config /\
       Validate E device_config (Execute.input_type self) = Some check /\
       check (Execute.input_target self) = (true, msg, status)).
Proof.
  unfold Execute.response.
  unfold bind at 1, lift at 1, getattr at 1.
  destruct (devices E (Execute.input_location self)) as [device_config|]
    eqn:Hdev.
  2: { exists []. simpl. rewrite app_nil_r. split; [reflexivity|discriminate]. }
  unfold bind at 1, lift at 1, getattr at 1.
  destruct (Validate E device_config (Execute.input_type self)) as [check|]
    eqn:Hval.
  2: { exists []. simpl. rewrite app_nil_r. split; [reflexivity|discriminate]. }
  unfold bind at 1, io at 1.
  destruct (check (Execute.input_target self)) as [[validity msg] status]
    eqn:Hcheck.
  destruct validity; cbn [negb].
  - set (validated := (h ++ [EvValidate (Execute.input_type self)
                               (Execute.input_target self)])%list).
    assert (Hrun : forall c : M (string * Z), appends c ->
               exists events, snd (c validated) = (h ++ events)%list).
    { intros c Hc. destruct (Hc validated) as [evs Hevs].
      exists ([EvValidate (Execute.input_type self)
                 (Execute.input_target self)] ++ evs)%list.
      rewrite Hevs. unfold validated. now rewrite <- app_assoc. }
    assert (Hok : exists device_config0 check0 msg0 status0,
               Some device_config = Some device_config0 /\
               Validate E device_config0 (Execute.input_type self)
               = Some check0 /\
               check0 (Execute.input_target self) = (true, msg0, status0)).
    { exists device_config, check, msg, status. auto. }
    destruct (Hrun _ (appends_after_validation E self device_config status))
      as [events Hevents].
    exists events. split; [exact Hevents | intros _; exact Hok].
  - exists [EvValidate (Execute.input_type self) (Execute.input_target self)].
    split; [reflexivity | discriminate].
Qed.

Lemma response_network_needs_validation_witness :
  exists events,
    snd (Execute.response Sample.agent_up
           (Sample.ask "pop1" "bgp_route" "192.0.2.0/24") []) =
    ([] ++ events)%list /\
    (existsb is_network_io events = true ->
     exists device_config check msg status,
       devices Sample.agent_up "pop1" = Some device_config /\
       Validate Sample.agent_up device_config "bgp_route" = Some check /\
       check "192.0.2.0/24" = (true, msg, status)).
Proof.
  exact (response_network_needs_validation Sample.agent_up
           (Sample.ask "pop1" "bgp_route" "192.0.2.0/24") []).
Defined.

(** X15: on the REST path a transport failure reaches the caller of
    [Execute.response] as the general message with the invalid status,
    for every query type: when the awaited request of a validated query on
    an [frr] device raises a listed exception, that pair is the answer and
    the request was the only network event. *)
Theorem response_frr_failure (E : env) (self : Execute.t) (h : trace)
    (device_config : Device.t) (check : string -> bool * string * Z)
    (msg : string) (status : Z) (cred : Credential.t)
    (method : string -> string -> constructed) (e : exn) :
  let connection := Cases.rest_instance device_config method cred self in
  let request := Rest.request connection "/frr" in
  let built :=
    (h ++ [EvValidate (Execute.input_type self) (Execute.input_target self);
           EvConstruct "rest" (Execute.input_type self)
             (Execute.input_target self)])%list in
  devices E (Execute.input_location self) = Some device_config ->
  Validate E device_config (Execute.input_type self) = Some check ->
  check (Execute.input_target self) = (true, msg, status) ->
  Device.nos device_config = "frr" ->
  is_rest E "frr" = true ->
  credentials E (Device.credential device_config) = Some cred ->
  Construct E device_config (Execute.input_type self) = Some method ->
  client_post E request = Return (Awaitable request) ->
  http_reply E (built ++ [EvHttp request])%list = Raise e ->
  In e Rest.rest_errors ->
  Execute.response E self h =
  (Return (messages_general E, code_invalid E),
   (built ++ [EvHttp request])%list).
Proof.
  intros connection request built Hdev Hval Hcheck Hnos Hrest Hcred Hmethod
    Hpost Hreply He.
  unfold Execute.response.
  unfold bind at 1, lift at 1, getattr at 1. rewrite Hdev.
  unfold bind at 1, lift at 1, getattr at 1. rewrite Hval.
  unfold bind at 1, io at 1. rewrite Hcheck. cbn [negb].
  rewrite Hnos, Hrest.
  unfold bind at 1.
  rewrite (rest_init_returns E "rest" device_config _ _ _ cred method
             Hcred Hmethod).
  rewrite <- app_assoc. simpl app. fold built.
  rewrite rest_dispatch_frr. unfold bind at 1.
  change {| Rest.transport := "rest"; Rest.device := device_config;
            Rest.query_type := Execute.input_type self;
            Rest.target := Execute.input_target self;
            Rest.cred := cred;
            Rest.query := method "rest" (Execute.input_target self) |}
    with connection.
  pose proof (frr_try_await_raises E connection built e Hpost Hreply) as Htry.
  fold request in Htry.
  assert (Hfrr : Rest.frr E connection built =
                 (Return (messages_general E, code_invalid E),
                  (built ++ [EvHttp request])%list)).
  { unfold Rest.frr.
    rewrite (try_except_raise _ _ _ e) by now rewrite Htry.
    rewrite Htry. unfold Rest.rest_except.
    apply exn_in_In in He. now rewrite He. }
  rewrite Hfrr.
  unfold bind, lift, ret, Execute.parse, parse.
  destruct (str_in (Execute.input_type self) _); reflexivity.
Qed.

Lemma response_frr_failure_witness :
  Execute.response Sample.agent_down
    (Sample.ask "pop1" "bgp_community" "65000:1") [] =
  (Return ("Something went wrong.", 415%Z),
   [EvValidate "bgp_community" "65000:1";
    EvConstruct "rest" "bgp_community" "65000:1";
    EvHttp (Rest.request
              (Cases.rest_instance (Sample.router "frr" None "pop1")
                 (Sample.build (Sample.router "frr" None "pop1")
                    "bgp_community")
                 Sample.admin (Sample.ask "pop1" "bgp_community" "65000:1"))
              "/frr")]).
Proof.
  apply (response_frr_failure Sample.agent_down
           (Sample.ask "pop1" "bgp_community" "65000:1") []
           (Sample.router "frr" None "pop1") Sample.check
           "Valid Query" 200%Z Sample.admin
           (Sample.build (Sample.router "frr" None "pop1") "bgp_community")
           ConnectTimeout);
    try reflexivity.
  simpl. left. reflexivity.
Defined.
